(** * ERC-8004 example agents: work exchange and validation protocol

    A shallow embedding of the Python agents [agents/server_agent.py] and
    [agents/validator_agent.py]: the score extractor, the two fallback
    report generators, the content hash of an analysis package, the
    file store under [data/] and the two protocol steps
    [submit_work_for_validation] and [validate_analysis].

    Python values are modelled as follows.
    - [str]: a [string] whose characters are the code points U+0000..U+00FF
      (one [ascii] per code point).  Case mapping, [\s], [\d] and [repr]
      follow CPython on that range.
    - [int]: [Z].  [float]: the binary64 numbers of [PrimFloat].
    - [dict] with string keys: an association list in insertion order.
    - an exception: the [Raise] case of [result].

    The console is left out: of a [print], what is kept is the
    evaluation of its f-string where that can raise.  Reading and writing
    a file do not fail, but for a file that is not there, and the
    interpreter's memory and recursion depth are taken to suffice.

    [demonstrate_validation] of [demo.py] is included as the caller of the
    validator's two steps. *)

From Stdlib Require Import ZArith NArith String Ascii List Bool Lia.
From Stdlib Require Import DecimalString Floats Uint63.
From Stdlib Require Strings.Byte DecimalFacts DecimalPos.
From stdpp Require Import base option list gmap strings sorting.

Import ListNotations.
Local Open Scope string_scope.
Local Open Scope Z_scope.

(** ** Exceptions and results *)

Inductive exn : Type :=
| ValueError
| KeyError
| TypeError
| AttributeError
| OverflowError
| JSONDecodeError
| EngineError
| RegistryError
| ChainError
| OutOfModel (* a float or a code point above U+00FF: a value outside the modelled ones *).

Inductive result (A : Type) : Type :=
| Ok (a : A)
| Raise (e : exn).

Arguments Ok {A} a.
Arguments Raise {A} e.

Definition bind {A B : Type} (r : result A) (k : A -> result B) : result B :=
  match r with
  | Ok a => k a
  | Raise e => Raise e
  end.

Notation "'let*' x ':=' r 'in' k" := (bind r (fun x => k))
  (at level 10, x name, r at level 100, k at level 200).

(** ** Python [str] on the code points below 256 *)

Module PyStr.

Definition code (c : ascii) : N := N_of_ascii c.

(** The characters [str.lower] changes: A-Z and U+00C0..U+00DE except
    the multiplication sign U+00D7. *)
Definition is_upper (c : ascii) : bool :=
  let n := code c in
  ((65 <=? n) && (n <=? 90) || (192 <=? n) && (n <=? 222) && negb (n =? 215))%N.

Definition lower_char (c : ascii) : ascii :=
  if is_upper c then ascii_of_N (code c + 32) else c.

(** [s.lower()] *)
Fixpoint lower (s : string) : string :=
  match s with
  | EmptyString => EmptyString
  | String c s' => String (lower_char c) (lower s')
  end.

(** [sub in s] *)
Fixpoint contains (sub s : string) : bool :=
  String.prefix sub s ||
  match s with
  | EmptyString => false
  | String _ s' => contains sub s'
  end.

(** [q in s] for a character [q] *)
Fixpoint has_char (q : ascii) (s : string) : bool :=
  match s with
  | EmptyString => false
  | String c s' => Ascii.eqb c q || has_char q s'
  end.

(** Are all the characters of [s] in the class [cls]? *)
Fixpoint all_in (cls : ascii -> bool) (s : string) : bool :=
  match s with
  | EmptyString => true
  | String c s' => cls c && all_in cls s'
  end.

(** Is the first character of [s], if any, in the class [cls]? *)
Definition starts_in (cls : ascii -> bool) (s : string) : bool :=
  match s with
  | EmptyString => false
  | String c _ => cls c
  end.

(** [\s] of a [str] pattern: the characters of [str.isspace]. *)
Definition is_space (c : ascii) : bool :=
  let n := code c in
  ((9 <=? n) && (n <=? 13) || (28 <=? n) && (n <=? 32) || (n =? 133) || (n =? 160))%N.

(** [\d] of a [str] pattern: the decimal digits. *)
Definition is_digit (c : ascii) : bool :=
  let n := code c in ((48 <=? n) && (n <=? 57))%N.

Fixpoint all_digits (s : string) : bool :=
  match s with
  | EmptyString => true
  | String c s' => is_digit c && all_digits s'
  end.

Fixpoint int_digits (acc : Z) (s : string) : Z :=
  match s with
  | EmptyString => acc
  | String c s' => int_digits (10 * acc + (Z.of_N (code c) - 48)) s'
  end.

(** [int(s)] for a string of decimal digits: the score extractor and the
    JSON decoder convert no other strings.  [max_str_digits] is the
    interpreter's [sys.get_int_max_str_digits()]: 0 disables the limit
    (as in the interpreters before 3.11), the default is 4300; a longer
    digit string raises [ValueError].  The limit is only looked at above
    640 digits. *)
Definition py_int (max_str_digits : nat) (s : string) : result Z :=
  match s with
  | EmptyString => Raise ValueError
  | _ =>
      if all_digits s then
        let n := String.length s in
        if (Nat.ltb 640 n && Nat.ltb 0 max_str_digits && Nat.ltb max_str_digits n)%bool
        then Raise ValueError
        else Ok (int_digits 0 s)
      else Raise ValueError
  end.

(** [str(n)] for an [int]. *)
Definition str_of_int (n : Z) : string := NilZero.string_of_int (Z.to_int n).

(** [sep.join(l)] *)
Fixpoint join (sep : string) (l : list string) : string :=
  match l with
  | [] => EmptyString
  | [x] => x
  | x :: l' => x ++ sep ++ join sep l'
  end.

End PyStr.

(** ** The fragment of [re] the score patterns use *)

Module Re.

(** A pattern is a sequence of items: a literal character, [cls+]
    (greedy, one or more) and the capturing group [(cls+)].  Every
    score pattern has exactly one group. *)
Inductive item : Type :=
| Lit (c : ascii)
| Plus (cls : ascii -> bool)
| Group (cls : ascii -> bool).

Definition regex : Type := list item.

Fixpoint lits (s : string) : regex :=
  match s with
  | EmptyString => []
  | String c s' => Lit c :: lits s'
  end.

(** [cls+] followed by the rest of the pattern [k], as the backtracking
    matcher runs it: take as many characters as possible, and give them
    back one at a time while [k] fails. *)
Fixpoint plus_loop (cls : ascii -> bool) (k : string -> option (string * string))
  (s : string) : option (string * string) :=
  match s with
  | String c s' =>
      if cls c then
        match plus_loop cls k s' with
        | Some m => Some m
        | None => k s'
        end
      else None
  | EmptyString => None
  end.

(** The same for the group [(cls+)], whose text is returned. *)
Fixpoint group_loop (cls : ascii -> bool) (k : string -> option (string * string))
  (s : string) : option (string * string) :=
  match s with
  | String c s' =>
      if cls c then
        match group_loop cls k s' with
        | Some (g, rest) => Some (String c g, rest)
        | None =>
            match k s' with
            | Some (_, rest) => Some (String c EmptyString, rest)
            | None => None
            end
        end
      else None
  | EmptyString => None
  end.

(** [match_here r s]: the match of [r] anchored at the start of [s]: the
    text of the group and the unconsumed rest of [s]. *)
Fixpoint match_here (r : regex) (s : string) {struct r} : option (string * string) :=
  match r with
  | [] => Some (EmptyString, s)
  | Lit c :: r' =>
      match s with
      | String c' s' => if Ascii.eqb c c' then match_here r' s' else None
      | EmptyString => None
      end
  | Plus cls :: r' => plus_loop cls (match_here r') s
  | Group cls :: r' => group_loop cls (match_here r') s
  end.

(** [findall_from r skip s]: the groups of the non-overlapping matches
    of [r] in [s], left to right, once the first [skip] characters
    (the tail of the previous match) are passed.  After a match the
    search resumes where the match ended; after a failure, one
    character further. *)
Fixpoint findall_from (r : regex) (skip : nat) (s : string) {struct s} : list string :=
  match s with
  | EmptyString => []
  | String _ s' =>
      match skip with
      | S k => findall_from r k s'
      | O =>
          match match_here r s with
          | Some (g, rest) =>
              g :: findall_from r (String.length s' - String.length rest) s'
          | None => findall_from r 0 s'
          end
      end
  end.

(** [re.findall(r, s)] for a pattern with one group. *)
Definition findall (r : regex) (s : string) : list string := findall_from r 0 s.

End Re.

(** ** The score extractor (validator_agent.py) *)

Module Extractor.
Import PyStr Re.

(** [[:\s]] *)
Definition colon_or_space (c : ascii) : bool := Ascii.eqb c ":" || is_space c.

(** The patterns [kw[:\s]+(\d+)]. *)
Definition keyword_pattern (kw : string) : regex :=
  (lits kw ++ [Plus colon_or_space; Group is_digit])%list.

Definition score_patterns : list regex :=
  [ keyword_pattern "score";                  (* score[:\s]+(\d+) *)
    ([Group is_digit] ++ lits "/100")%list;   (* (\d+)/100 *)
    [Group is_digit; Lit "%"];                (* (\d+)% *)
    keyword_pattern "overall"                 (* overall[:\s]+(\d+) *)
  ].

(** [matches[-1]] of a non-empty list. *)
Definition last_match (matches : list string) : string := List.last matches EmptyString.

Definition keyword_score (result_lower : string) : Z :=
  if contains "excellent" result_lower || contains "outstanding" result_lower then 95
  else if contains "good" result_lower || contains "solid" result_lower then 85
  else if contains "adequate" result_lower || contains "acceptable" result_lower then 75
  else if contains "poor" result_lower || contains "inadequate" result_lower then 45
  else 70.

(** The words [keyword_score] looks for. *)
Definition sentiment_keywords : list string :=
  ["excellent"; "outstanding"; "good"; "solid"; "adequate"; "acceptable"; "poor"; "inadequate"].

(** The [for pattern in score_patterns] loop, with the code after it
    when no pattern matches. *)
Fixpoint scan (max_str_digits : nat) (patterns : list regex) (validation_result : string)
  : result Z :=
  match patterns with
  | [] => Ok (keyword_score (lower validation_result))
  | pattern :: patterns' =>
      match findall pattern (lower validation_result) with
      | [] => scan max_str_digits patterns' validation_result
      | matches =>
          let* score := py_int max_str_digits (last_match matches) in
          Ok (Z.min 100 (Z.max 0 score))
      end
  end.

(** [_extract_validation_score]: the [try] body and the handler
    [except Exception: return 70]. *)
Definition _extract_validation_score (max_str_digits : nat) (validation_result : string) : Z :=
  match scan max_str_digits score_patterns validation_result with
  | Ok score => score
  | Raise _ => 70
  end.

End Extractor.


(** ** Python values that [json] reads and writes *)

Module Json.
Import PyStr.

(** The values [json.load] returns and [json.dump] accepts, without
    [float]: [None], [bool], [int], [str], [list] and [dict] with string
    keys (in insertion order). *)
Local Unset Elimination Schemes.
Inductive json : Type :=
| JNull
| JBool (b : bool)
| JInt (n : Z)
| JStr (s : string)
| JList (l : list json)
| JDict (items : list (string * json)).
Local Set Elimination Schemes.

Definition dquote : ascii := ascii_of_nat 34.
Definition squote : ascii := ascii_of_nat 39.
Definition backslash : ascii := ascii_of_nat 92.
Definition newline : string := String (ascii_of_nat 10) EmptyString.

Definition hex_digit (n : N) : ascii :=
  if (n <? 10)%N then ascii_of_N (48 + n) else ascii_of_N (87 + n).

(** Two lower-case hexadecimal digits of a code point below 256. *)
Definition hex2 (c : ascii) : string :=
  String (hex_digit (code c / 16)) (String (hex_digit (code c mod 16)) EmptyString).

(** One character of [json.encoder.py_encode_basestring_ascii]. *)
Definition escape_char (c : ascii) : string :=
  let n := code c in
  if (n =? 34)%N then String backslash (String dquote EmptyString)
  else if (n =? 92)%N then String backslash (String backslash EmptyString)
  else if (n =? 10)%N then "\n"
  else if (n =? 13)%N then "\r"
  else if (n =? 9)%N then "\t"
  else if (n =? 8)%N then "\b"
  else if (n =? 12)%N then "\f"
  else if ((32 <=? n) && (n <=? 126))%N then String c EmptyString
  else "\u00" ++ hex2 c.

Fixpoint escape (s : string) : string :=
  match s with
  | EmptyString => EmptyString
  | String c s' => escape_char c ++ escape s'
  end.

Definition encode_str (s : string) : string :=
  String dquote (escape s) ++ String dquote EmptyString.

(** [sorted(dct.items())]: a stable insertion sort on the keys, which
    compare as Python strings do, code point by code point.  The keys
    of a dict are distinct, so the values are never compared. *)
Fixpoint insert_item {V : Type} (kv : string * V) (l : list (string * V))
  : list (string * V) :=
  match l with
  | [] => [kv]
  | kv' :: l' =>
      if String.leb (fst kv) (fst kv') then kv :: l else kv' :: insert_item kv l'
  end.

Fixpoint sort_items {V : Type} (l : list (string * V)) : list (string * V) :=
  match l with
  | [] => []
  | kv :: l' => insert_item kv (sort_items l')
  end.

Definition encode_item (sep : string) (kv : string * string) : string :=
  encode_str (fst kv) ++ sep ++ snd kv.

(** [json.dumps(obj, sort_keys=True)]: separators [", "] and [": "],
    [ensure_ascii].  The values are encoded before the items are
    sorted; the order of the two steps does not matter, as the sort
    looks at the keys only. *)
Fixpoint dumps_sorted (obj : json) : string :=
  match obj with
  | JNull => "null"
  | JBool true => "true"
  | JBool false => "false"
  | JInt n => str_of_int n
  | JStr s => encode_str s
  | JList l =>
      match l with
      | [] => "[]"
      | _ => "[" ++ join ", " (map dumps_sorted l) ++ "]"
      end
  | JDict items =>
      match items with
      | [] => "{}"
      | _ =>
          "{" ++ join ", " (map (encode_item ": ")
                             (sort_items (map (fun '(k, v) => (k, dumps_sorted v)) items)))
              ++ "}"
      end
  end.

Fixpoint spaces (n : nat) : string :=
  match n with
  | O => EmptyString
  | S n' => String " " (spaces n')
  end.

(** ['\n' + ' ' * (2 * level)] *)
Definition newline_indent (level : nat) : string := newline ++ spaces (2 * level).

(** [json.dumps(obj, indent=2)], the text [json.dump(obj, f, indent=2)]
    writes: item separator [","], key separator [": "], keys in
    insertion order; [level] is the current indent level. *)
Fixpoint dumps_indent (level : nat) (obj : json) : string :=
  match obj with
  | JNull => "null"
  | JBool true => "true"
  | JBool false => "false"
  | JInt n => str_of_int n
  | JStr s => encode_str s
  | JList l =>
      match l with
      | [] => "[]"
      | _ =>
          "[" ++ newline_indent (S level)
              ++ join ("," ++ newline_indent (S level)) (map (dumps_indent (S level)) l)
              ++ newline_indent level ++ "]"
      end
  | JDict items =>
      match items with
      | [] => "{}"
      | _ =>
          "{" ++ newline_indent (S level)
              ++ join ("," ++ newline_indent (S level))
                   (map (fun '(k, v) => encode_str k ++ ": " ++ dumps_indent (S level) v) items)
              ++ newline_indent level ++ "}"
      end
  end.

(** ** Dictionary operations *)

(** [d.get(key)] as an option, on the items of a dict. *)
Fixpoint dict_get (key : string) (items : list (string * json)) : option json :=
  match items with
  | [] => None
  | (k, v) :: items' => if String.eqb key k then Some v else dict_get key items'
  end.

(** [key in d] *)
Definition dict_mem (key : string) (items : list (string * json)) : bool :=
  match dict_get key items with Some _ => true | None => false end.

(** [d[key] = v]: an existing key keeps its position. *)
Fixpoint dict_set (key : string) (v : json) (items : list (string * json))
  : list (string * json) :=
  match items with
  | [] => [(key, v)]
  | (k, v') :: items' =>
      if String.eqb key k then (k, v) :: items' else (k, v') :: dict_set key v items'
  end.

(** ** Values with the same content *)

Fixpoint distinct (keys : list string) : bool :=
  match keys with
  | [] => true
  | k :: keys' => negb (existsb (String.eqb k) keys') && distinct keys'
  end.

(** A Python value has no dict with a repeated key. *)
Fixpoint well_formed (v : json) : bool :=
  match v with
  | JList l => forallb well_formed l
  | JDict items =>
      distinct (map fst items) && forallb (fun '(_, x) => well_formed x) items
  | _ => true
  end.

(** Two values have the same content when they differ at most in the
    insertion order of their dicts: the items of one dict are the items
    of the other in some order, with the same keys and values of the same
    content. *)
Local Unset Elimination Schemes.
Inductive same_content : json -> json -> Prop :=
| same_null : same_content JNull JNull
| same_bool (b : bool) : same_content (JBool b) (JBool b)
| same_int (n : Z) : same_content (JInt n) (JInt n)
| same_str (s : string) : same_content (JStr s) (JStr s)
| same_list (l1 l2 : list json) :
    Forall2 same_content l1 l2 -> same_content (JList l1) (JList l2)
| same_dict (items1 reordered items2 : list (string * json)) :
    Permutation items1 reordered ->
    Forall2 (fun kv1 kv2 => fst kv1 = fst kv2 /\ same_content (snd kv1) (snd kv2))
            reordered items2 ->
    same_content (JDict items1) (JDict items2).
Local Set Elimination Schemes.

(** ** [repr] and [str] *)

(** The characters [repr] of a [str] writes as they are:
    [str.isprintable] on the code points below 256. *)
Definition is_printable (c : ascii) : bool :=
  let n := code c in
  ((32 <=? n) && (n <=? 126) || (161 <=? n) && negb (n =? 173))%N.

Definition repr_char (quote : ascii) (c : ascii) : string :=
  let n := code c in
  if Ascii.eqb c quote || (n =? 92)%N then String backslash (String c EmptyString)
  else if (n =? 9)%N then "\t"
  else if (n =? 10)%N then "\n"
  else if (n =? 13)%N then "\r"
  else if is_printable c then String c EmptyString
  else "\x" ++ hex2 c.

Fixpoint repr_chars (quote : ascii) (s : string) : string :=
  match s with
  | EmptyString => EmptyString
  | String c s' => repr_char quote c ++ repr_chars quote s'
  end.

(** [repr(s)] for a [str]: single quotes, unless the string has a single
    quote and no double quote. *)
Definition repr_str (s : string) : string :=
  let quote := if has_char squote s && negb (has_char dquote s) then dquote else squote in
  String quote (repr_chars quote s) ++ String quote EmptyString.

(** [repr(v)] *)
Fixpoint py_repr (v : json) : string :=
  match v with
  | JNull => "None"
  | JBool true => "True"
  | JBool false => "False"
  | JInt n => str_of_int n
  | JStr s => repr_str s
  | JList l => "[" ++ join ", " (map py_repr l) ++ "]"
  | JDict items =>
      "{" ++ join ", " (map (fun '(k, v) => repr_str k ++ ": " ++ py_repr v) items) ++ "}"
  end.

(** [str(v)]: the string itself for a [str], [repr(v)] otherwise. *)
Definition py_str (v : json) : string :=
  match v with
  | JStr s => s
  | _ => py_repr v
  end.

(** ** The limit on the digits of an [int] *)

(** The interpreter converts [n] to text, and the digits of [n] to an
    [int].  [max_str_digits] is [sys.get_int_max_str_digits()]: 0 stands
    for no limit, and the limit is looked at above 640 digits only. *)
Definition int_in_limit (max_str_digits : nat) (n : Z) : bool :=
  let d := String.length (str_of_int (Z.abs n)) in
  negb (Nat.ltb 640 d && Nat.ltb 0 max_str_digits && Nat.ltb max_str_digits d).

Fixpoint ints_in_limit (max_str_digits : nat) (v : json) : bool :=
  match v with
  | JInt n => int_in_limit max_str_digits n
  | JList l => forallb (ints_in_limit max_str_digits) l
  | JDict items => forallb (fun '(_, x) => ints_in_limit max_str_digits x) items
  | _ => true
  end.

(** A conversion of [v] to [text]: [ValueError] when an [int] of [v] is
    beyond the limit. *)
Definition checked (max_str_digits : nat) (v : json) (text : string) : result string :=
  if ints_in_limit max_str_digits v then Ok text else Raise ValueError.

(** [str(v)], as a call and as a field of an f-string. *)
Definition str (max_str_digits : nat) (v : json) : result string :=
  checked max_str_digits v (py_str v).

(** [json.dumps(obj, sort_keys=True)] *)
Definition dumps (max_str_digits : nat) (obj : json) : result string :=
  checked max_str_digits obj (dumps_sorted obj).

(** [json.dumps(obj, indent=2)] *)
Definition dumps2 (max_str_digits : nat) (obj : json) : result string :=
  checked max_str_digits obj (dumps_indent 0 obj).

(** ** What [json.dump] writes *)

Definition is_int (v : json) : bool :=
  match v with JInt _ => true | _ => false end.

(** The items of a list or dict, written one after another: [buf] is
    the bracket or separator before the next item, and an item comes as
    its text with whether the text is whole.  An item that is cut ends
    the writing; when it is [atomic], it would have been written in one
    piece with [buf], and nothing of either is written. *)
Fixpoint write_items (buf sep close : string) (items : list (bool * (string * bool)))
  : string * bool :=
  match items with
  | [] => (close, true)
  | (atomic, (text, whole)) :: items' =>
      if whole then
        let (rest, finished) := write_items sep sep close items' in
        (buf ++ text ++ rest, finished)
      else (if atomic then EmptyString else buf ++ text, false)
  end.

(** What [json.dump(obj, f, indent=2)] has written to [f] when it
    returns or raises, and whether it returned.  The encoder hands over
    the text piece by piece, and an [int] beyond the limit raises when
    its turn comes: the pieces before it are in the file.  An [int] in a
    list is one piece with the bracket or separator before it. *)
Fixpoint dump_written (max_str_digits level : nat) (obj : json) : string * bool :=
  match obj with
  | JInt n =>
      if int_in_limit max_str_digits n then (str_of_int n, true) else (EmptyString, false)
  | JList l =>
      match l with
      | [] => ("[]", true)
      | _ =>
          write_items ("[" ++ newline_indent (S level)) ("," ++ newline_indent (S level))
            (newline_indent level ++ "]")
            (map (fun x => (is_int x, dump_written max_str_digits (S level) x)) l)
      end
  | JDict items =>
      match items with
      | [] => ("{}", true)
      | _ =>
          write_items ("{" ++ newline_indent (S level)) ("," ++ newline_indent (S level))
            (newline_indent level ++ "}")
            (map (fun '(k, x) =>
                    let (text, whole) := dump_written max_str_digits (S level) x in
                    (false, (encode_str k ++ ": " ++ text, whole))) items)
      end
  | _ => (dumps_indent level obj, true)
  end.

End Json.

(** ** [hashlib.sha256] (FIPS 180-4) on byte strings *)

Module Sha256.

Definition byte_of_Z (z : Z) : Byte.byte := byte_of_ascii (ascii_of_N (Z.to_N (z mod 256))).
Definition Z_of_byte (b : Byte.byte) : Z := Z.of_N (N_of_ascii (ascii_of_byte b)).

(** 32-bit words are integers in [0, 2^32); sums wrap around. *)
Definition wrap (x : Z) : Z := x mod 2 ^ 32.
Definition add32 (x y : Z) : Z := wrap (x + y).
Definition not32 (x : Z) : Z := Z.lxor x 0xffffffff.
Definition rotr (n x : Z) : Z := wrap (Z.lor (Z.shiftr x n) (Z.shiftl x (32 - n))).
Definition shr (n x : Z) : Z := Z.shiftr x n.

Definition Ch (x y z : Z) : Z := Z.lxor (Z.land x y) (Z.land (not32 x) z).
Definition Maj (x y z : Z) : Z :=
  Z.lxor (Z.lxor (Z.land x y) (Z.land x z)) (Z.land y z).
Definition Sigma0 (x : Z) : Z := Z.lxor (Z.lxor (rotr 2 x) (rotr 13 x)) (rotr 22 x).
Definition Sigma1 (x : Z) : Z := Z.lxor (Z.lxor (rotr 6 x) (rotr 11 x)) (rotr 25 x).
Definition sigma0 (x : Z) : Z := Z.lxor (Z.lxor (rotr 7 x) (rotr 18 x)) (shr 3 x).
Definition sigma1 (x : Z) : Z := Z.lxor (Z.lxor (rotr 17 x) (rotr 19 x)) (shr 10 x).

(** The first 64 primes. *)
Definition primes : list Z :=
  [ 2; 3; 5; 7; 11; 13; 17; 19; 23; 29; 31; 37; 41; 43; 47; 53; 59; 61; 67; 71;
    73; 79; 83; 89; 97; 101; 103; 107; 109; 113; 127; 131; 137; 139; 149; 151;
    157; 163; 167; 173; 179; 181; 191; 193; 197; 199; 211; 223; 227; 229; 233;
    239; 241; 251; 257; 263; 269; 271; 277; 281; 283; 293; 307; 311 ].

(** The largest [x] in [lo, hi) with [x^3 <= n], by bisection. *)
Fixpoint cube_root_in (fuel : nat) (n lo hi : Z) : Z :=
  match fuel with
  | O => lo
  | S fuel' =>
      let mid := (lo + hi) / 2 in
      if mid =? lo then lo
      else if mid ^ 3 <=? n then cube_root_in fuel' n mid hi
      else cube_root_in fuel' n lo mid
  end.

(** The round constants: the first 32 bits of the fractional part of the
    cube root of each prime. *)
Definition K : list Z :=
  Eval vm_compute in map (fun p => wrap (cube_root_in 64 (p * 2 ^ 96) 0 (2 ^ 40))) primes.

(** The hash state: eight words. *)
Record state : Type := State {
  ha : Z; hb : Z; hc : Z; hd : Z; he : Z; hf : Z; hg : Z; hh : Z
}.

(** The initial state: the first 32 bits of the fractional part of the
    square root of each of the first eight primes. *)
Definition frac_sqrt (p : Z) : Z := wrap (Z.sqrt (p * 2 ^ 64)).

Definition H0 : state :=
  Eval vm_compute in
    State (frac_sqrt 2) (frac_sqrt 3) (frac_sqrt 5) (frac_sqrt 7)
          (frac_sqrt 11) (frac_sqrt 13) (frac_sqrt 17) (frac_sqrt 19).

(** Big-endian bytes of a word, and back. *)
Definition word_bytes (w : Z) : list Byte.byte :=
  [ byte_of_Z (Z.shiftr w 24); byte_of_Z (Z.shiftr w 16);
    byte_of_Z (Z.shiftr w 8); byte_of_Z w ].

Fixpoint be_value (acc : Z) (bs : list Byte.byte) : Z :=
  match bs with
  | [] => acc
  | b :: bs' => be_value (acc * 256 + Z_of_byte b) bs'
  end.

(** The words of a block, four bytes each. *)
Fixpoint words (n : nat) (bs : list Byte.byte) : list Z :=
  match n with
  | O => []
  | S n' => be_value 0 (firstn 4 bs) :: words n' (skipn 4 bs)
  end.

(** The message schedule, most recent word first: [rev_w] holds
    W(t-1), W(t-2), ..., W(0). *)
Fixpoint extend (n : nat) (rev_w : list Z) : list Z :=
  match n with
  | O => rev_w
  | S n' =>
      let w := fun i => nth i rev_w 0 in
      extend n' (add32 (add32 (sigma1 (w 1%nat)) (w 6%nat))
                       (add32 (sigma0 (w 14%nat)) (w 15%nat)) :: rev_w)
  end.

Definition schedule (block : list Byte.byte) : list Z :=
  rev (extend 48 (rev (words 16 block))).

Definition round (s : state) (kw : Z * Z) : state :=
  let t1 := add32 (add32 (add32 (hh s) (Sigma1 (he s))) (Ch (he s) (hf s) (hg s)))
                  (add32 (fst kw) (snd kw)) in
  let t2 := add32 (Sigma0 (ha s)) (Maj (ha s) (hb s) (hc s)) in
  State (add32 t1 t2) (ha s) (hb s) (hc s) (add32 (hd s) t1) (he s) (hf s) (hg s).

Definition compress (h : state) (block : list Byte.byte) : state :=
  let s := fold_left round (combine K (schedule block)) h in
  State (add32 (ha h) (ha s)) (add32 (hb h) (hb s)) (add32 (hc h) (hc s))
        (add32 (hd h) (hd s)) (add32 (he h) (he s)) (add32 (hf h) (hf s))
        (add32 (hg h) (hg s)) (add32 (hh h) (hh s)).

(** Padding: a 1 bit, zeros up to 56 modulo 64 bytes, and the length of
    the message in bits as a 64-bit big-endian number. *)
Definition pad (msg : list Byte.byte) : list Byte.byte :=
  let n := Z.of_nat (length msg) in
  let zeros := Z.to_nat ((55 - n) mod 64) in
  let bits := (8 * n) mod 2 ^ 64 in
  (msg ++ [byte_of_Z 0x80] ++ repeat (byte_of_Z 0) zeros
       ++ word_bytes (Z.shiftr bits 32) ++ word_bytes bits)%list.

Fixpoint blocks (n : nat) (h : state) (bs : list Byte.byte) : state :=
  match n with
  | O => h
  | S n' => blocks n' (compress h (firstn 64 bs)) (skipn 64 bs)
  end.

(** [hashlib.sha256(msg).digest()] *)
Definition digest (msg : list Byte.byte) : list Byte.byte :=
  let p := pad msg in
  let h := blocks (length p / 64)%nat H0 p in
  (word_bytes (ha h) ++ word_bytes (hb h) ++ word_bytes (hc h) ++ word_bytes (hd h)
     ++ word_bytes (he h) ++ word_bytes (hf h) ++ word_bytes (hg h) ++ word_bytes (hh h))%list.

(** [bytes.hex()]: two lower-case digits a byte. *)
Fixpoint hex (bs : list Byte.byte) : string :=
  match bs with
  | [] => EmptyString
  | b :: bs' => Json.hex2 (ascii_of_byte b) ++ hex bs'
  end.

(** The digits of [bytes.hex()]: 0-9 and a-f. *)
Definition is_lower_hex (c : ascii) : bool :=
  let n := PyStr.code c in ((48 <=? n) && (n <=? 57) || (97 <=? n) && (n <=? 102))%N.

(** [str.encode()]: UTF-8 of the code points below 256. *)
Fixpoint utf8 (s : string) : list Byte.byte :=
  match s with
  | EmptyString => []
  | String c s' =>
      let n := Z.of_N (PyStr.code c) in
      if n <? 128 then byte_of_Z n :: utf8 s'
      else byte_of_Z (Z.lor 0xc0 (Z.shiftr n 6))
             :: byte_of_Z (Z.lor 0x80 (Z.land n 0x3f)) :: utf8 s'
  end.

End Sha256.

(** ** Python [float]: binary64 *)

Module PyFloat.

(** [float(n)] for an [int] of magnitude below 2^53 (exact); the code
    converts scores and counts only. *)
Definition float_of_int (n : Z) : float :=
  if n <? 0 then PrimFloat.opp (PrimFloat.of_uint63 (Uint63.of_Z (- n)))
  else PrimFloat.of_uint63 (Uint63.of_Z n).

(** [int(x)]: truncation towards zero; [nan] and the infinities raise. *)
Definition int_of_float (x : float) : result Z :=
  match Prim2SF x with
  | S754_zero _ => Ok 0
  | S754_infinity _ => Raise OverflowError
  | S754_nan => Raise ValueError
  | S754_finite s m e =>
      let v := if 0 <=? e then Z.pos m * 2 ^ e else Z.pos m / 2 ^ (- e) in
      Ok (if s then - v else v)
  end.

(** The integer nearest to [m * 2^e], ties to the even one. *)
Definition round_half_even (m : positive) (e : Z) : Z :=
  if 0 <=? e then Z.pos m * 2 ^ e
  else
    let d := 2 ^ (- e) in
    let q := Z.pos m / d in
    let r := Z.pos m mod d in
    if 2 * r <? d then q
    else if d <? 2 * r then q + 1
    else if Z.even q then q else q + 1.

(** [format(x, '.0f')] *)
Definition format_f0 (x : float) : string :=
  match Prim2SF x with
  | S754_zero s => if s then "-0" else "0"
  | S754_infinity s => if s then "-inf" else "inf"
  | S754_nan => "nan"
  | S754_finite s m e =>
      (if s then "-" else EmptyString) ++ PyStr.str_of_int (round_half_even m e)
  end.

End PyFloat.

(** ** The fallback generators *)

Module Fallback.
Import PyStr Json PyFloat.

(** Lines of an f-string template, joined by newlines. *)
Definition lines (l : list string) : string := join newline l.

(** [field in container]: key membership for a dict, element
    membership for a list, substring for a str; other values are not
    iterable. *)
Definition py_in (field : string) (container : json) : result bool :=
  match container with
  | JDict items => Ok (dict_mem field items)
  | JList l =>
      Ok (existsb (fun v => match v with JStr s => String.eqb s field | _ => false end) l)
  | JStr s => Ok (contains field s)
  | _ => Raise TypeError
  end.

(** [[field for field in fields if field not in container]] *)
Fixpoint missing_in (container : json) (fields : list string) : result (list string) :=
  match fields with
  | [] => Ok []
  | field :: fields' =>
      let* present := py_in field container in
      let* rest := missing_in container fields' in
      Ok (if present then rest else field :: rest)
  end.

(** [container.get(key, default)]: only a dict has [get]. *)
Definition py_get (container : json) (key : string) (default : json) : result json :=
  match container with
  | JDict items =>
      Ok (match dict_get key items with Some v => v | None => default end)
  | _ => Raise AttributeError
  end.

Definition required_fields : list string := ["symbol"; "analysis"; "timestamp"; "agent_id"].
Definition key_components : list string :=
  ["trend"; "support"; "resistance"; "recommendation"; "risk"].

Definition len {A : Type} (l : list A) : Z := Z.of_nat (length l).

(** [d.get("analysis", "")] on the items of a dict. *)
Definition analysis_of (items : list (string * json)) : json :=
  match dict_get "analysis" items with
  | Some v => v
  | None => JStr EmptyString
  end.

(** The three scores of [_create_fallback_validation]. *)
Record scores : Type := Scores {
  missing_fields : list string;
  completeness_score : Z;
  found_components : list string;
  methodology_score : float;
  overall_score : Z
}.

Definition fallback_scores (max_str_digits : nat) (analysis_package : json) : result scores :=
  let* missing_fields := missing_in analysis_package required_fields in
  let completeness_score :=
    match missing_fields with
    | [] => 100
    | _ => Z.max 0 (100 - len missing_fields * 25)
    end in
  let* analysis := py_get analysis_package "analysis" (JStr EmptyString) in
  let* analysis_str := str max_str_digits analysis in
  let analysis_text := lower analysis_str in
  let found_components := List.filter (fun comp => contains comp analysis_text) key_components in
  let methodology_score :=
    (float_of_int (len found_components) / float_of_int (len key_components)
     * float_of_int 100)%float in
  let* overall_score :=
    int_of_float ((float_of_int completeness_score + methodology_score)
                  / float_of_int 2)%float in
  Ok (Scores missing_fields completeness_score found_components methodology_score overall_score).

(** The f-string of [_create_fallback_validation]; the numbers in it are
    scores and counts. *)
Definition validation_report (s : scores) : string :=
  lines
    [ EmptyString;
      "# Validation Report";
      EmptyString;
      "## Analysis Quality Assessment";
      EmptyString;
      "### Completeness Score: " ++ str_of_int (completeness_score s) ++ "/100";
      "- Required fields present: "
        ++ str_of_int (len required_fields - len (missing_fields s))
        ++ "/" ++ str_of_int (len required_fields);
      "- Missing fields: "
        ++ match missing_fields s with
           | [] => "None"
           | l => py_str (JList (map JStr l))
           end;
      EmptyString;
      "### Methodology Score: " ++ format_f0 (methodology_score s) ++ "/100";
      "- Key components found: " ++ str_of_int (len (found_components s))
        ++ "/" ++ str_of_int (len key_components);
      "- Components: " ++ join ", " (found_components s);
      EmptyString;
      "### Overall Validation Score: " ++ str_of_int (overall_score s) ++ "/100";
      EmptyString;
      "## Summary";
      "The analysis demonstrates "
        ++ (if 80 <=? overall_score s then "good"
            else if 60 <=? overall_score s then "adequate" else "basic")
        ++ " quality with "
        ++ (if 4 <=? len (found_components s) then "comprehensive" else "partial")
        ++ " coverage of required analytical components.";
      EmptyString;
      "*Note: This validation was performed using fallback logic. For AI-powered validation with CrewAI, please configure your OpenAI API key.*";
      EmptyString ].

(** [ValidatorAgent._create_fallback_validation] *)
Definition _create_fallback_validation (max_str_digits : nat) (analysis_package : json)
  : result string :=
  let* s := fallback_scores max_str_digits analysis_package in
  Ok (validation_report s).

End Fallback.

(** ** [json.loads] *)

Module JsonParse.
Import PyStr Json.

(** The whitespace of the decoder: space, tab, newline, carriage return. *)
Definition is_ws (c : ascii) : bool :=
  let n := code c in ((n =? 32) || (n =? 9) || (n =? 10) || (n =? 13))%N.

Fixpoint skip_ws (s : string) : string :=
  match s with
  | String c s' => if is_ws c then skip_ws s' else s
  | EmptyString => EmptyString
  end.

Definition hex_val (c : ascii) : option N :=
  let n := code c in
  if ((48 <=? n) && (n <=? 57))%N then Some (n - 48)%N
  else if ((97 <=? n) && (n <=? 102))%N then Some (n - 87)%N
  else if ((65 <=? n) && (n <=? 70))%N then Some (n - 55)%N
  else None.

Definition hex4 (a b c d : ascii) : option N :=
  match hex_val a, hex_val b, hex_val c, hex_val d with
  | Some x, Some y, Some z, Some w => Some (((x * 16 + y) * 16 + z) * 16 + w)%N
  | _, _, _, _ => None
  end.

(** The character a backslash escape stands for. *)
Definition unescape (e : ascii) : option ascii :=
  let n := code e in
  if (n =? 34)%N then Some dquote
  else if (n =? 92)%N then Some backslash
  else if (n =? 47)%N then Some "/"%char
  else if (n =? 98)%N then Some (ascii_of_nat 8)
  else if (n =? 102)%N then Some (ascii_of_nat 12)
  else if (n =? 110)%N then Some (ascii_of_nat 10)
  else if (n =? 114)%N then Some (ascii_of_nat 13)
  else if (n =? 116)%N then Some (ascii_of_nat 9)
  else None.

Definition cons_char (c : ascii) (r : result (string * string)) : result (string * string) :=
  let* p := r in Ok (String c (fst p), snd p).

(** [scanstring] (strict), from the character after the opening quote:
    the decoded string and the text after the closing quote.  An
    escape [\uXXXX] of a code point above U+00FF is outside the
    modelled strings. *)
Fixpoint scanstring (s : string) : result (string * string) :=
  match s with
  | EmptyString => Raise JSONDecodeError
  | String c s' =>
      if Ascii.eqb c dquote then Ok (EmptyString, s')
      else if Ascii.eqb c backslash then
        match s' with
        | EmptyString => Raise JSONDecodeError
        | String e s'' =>
            if Ascii.eqb e "u" then
              match s'' with
              | String h1 (String h2 (String h3 (String h4 s3))) =>
                  match hex4 h1 h2 h3 h4 with
                  | Some n =>
                      if (n <? 256)%N then cons_char (ascii_of_N n) (scanstring s3)
                      else Raise OutOfModel
                  | None => Raise JSONDecodeError
                  end
              | _ => Raise JSONDecodeError
              end
            else
              match unescape e with
              | Some ch => cons_char ch (scanstring s'')
              | None => Raise JSONDecodeError
              end
        end
      else if (code c <? 32)%N then Raise JSONDecodeError
      else cons_char c (scanstring s')
  end.

(** The longest prefix of digits, and the rest. *)
Fixpoint span_digits (s : string) : string * string :=
  match s with
  | String c s' =>
      if is_digit c then let p := span_digits s' in (String c (fst p), snd p)
      else (EmptyString, s)
  | EmptyString => (EmptyString, EmptyString)
  end.

(** Does a fraction [\.\d+] or an exponent [[eE][-+]?\d+] follow?  Then
    the literal is a float. *)
Definition float_follows (s : string) : bool :=
  match s with
  | String c s' =>
      if Ascii.eqb c "." then starts_in is_digit s'
      else if Ascii.eqb c "e" || Ascii.eqb c "E" then
        match s' with
        | String d s'' =>
            if Ascii.eqb d "+" || Ascii.eqb d "-" then starts_in is_digit s''
            else is_digit d
        | EmptyString => false
        end
      else false
  | EmptyString => false
  end.

(** An integer literal at the start of [s]: a single 0, or a non-zero
    digit followed by digits; [neg] tells that a minus sign has been
    read before it. *)
Definition parse_int (max_str_digits : nat) (neg : bool) (s : string)
  : result (json * string) :=
  match s with
  | String c s' =>
      if is_digit c then
        let p := if Ascii.eqb c "0" then ("0", s') else span_digits s in
        if float_follows (snd p) then Raise OutOfModel
        else
          let* n := py_int max_str_digits (fst p) in
          Ok (JInt (if neg then - n else n), snd p)
      else if neg && String.prefix "Infinity" s then Raise OutOfModel
      else Raise JSONDecodeError
  | EmptyString => Raise JSONDecodeError
  end.

Fixpoint drop (n : nat) (s : string) : string :=
  match n, s with
  | S n', String _ s' => drop n' s'
  | _, _ => s
  end.

(** [scan_once], [JSONObject] and [JSONArray].  [fuel] bounds the
    number of nested calls; [json_loads] gives the length of the text,
    which is enough for what the encoder writes.
    - [parse_value]: a value at the start of [s];
    - [parse_members]: the members of an object, from the character
      after the opening quote of a key, [acc] being the dict so far;
    - [parse_elems]: the elements of a list, from the first character
      of an element, [acc] being the elements read so far, last first. *)
Fixpoint parse_value (max_str_digits fuel : nat) (s : string) {struct fuel}
  : result (json * string) :=
  match fuel with
  | O => Raise JSONDecodeError
  | S fuel' =>
      match s with
      | EmptyString => Raise JSONDecodeError
      | String c s' =>
          if Ascii.eqb c dquote then
            let* p := scanstring s' in Ok (JStr (fst p), snd p)
          else if Ascii.eqb c "{" then
            match skip_ws s' with
            | String d s2 =>
                if Ascii.eqb d "}" then Ok (JDict [], s2)
                else if Ascii.eqb d dquote then parse_members max_str_digits fuel' [] s2
                else Raise JSONDecodeError
            | EmptyString => Raise JSONDecodeError
            end
          else if Ascii.eqb c "[" then
            match skip_ws s' with
            | String d s2 =>
                if Ascii.eqb d "]" then Ok (JList [], s2)
                else parse_elems max_str_digits fuel' [] (String d s2)
            | EmptyString => Raise JSONDecodeError
            end
          else if String.prefix "null" s then Ok (JNull, drop 4 s)
          else if String.prefix "true" s then Ok (JBool true, drop 4 s)
          else if String.prefix "false" s then Ok (JBool false, drop 5 s)
          else if String.prefix "NaN" s || String.prefix "Infinity" s then Raise OutOfModel
          else if Ascii.eqb c "-" then parse_int max_str_digits true s'
          else parse_int max_str_digits false s
      end
  end
with parse_members (max_str_digits fuel : nat) (acc : list (string * json)) (s : string)
  {struct fuel} : result (json * string) :=
  match fuel with
  | O => Raise JSONDecodeError
  | S fuel' =>
      let* k := scanstring s in
      match skip_ws (snd k) with
      | String c s1 =>
          if Ascii.eqb c ":" then
            let* v := parse_value max_str_digits fuel' (skip_ws s1) in
            let acc' := dict_set (fst k) (fst v) acc in
            match skip_ws (snd v) with
            | String d s2 =>
                if Ascii.eqb d "}" then Ok (JDict acc', s2)
                else if Ascii.eqb d "," then
                  match skip_ws s2 with
                  | String q s3 =>
                      if Ascii.eqb q dquote
                      then parse_members max_str_digits fuel' acc' s3
                      else Raise JSONDecodeError
                  | EmptyString => Raise JSONDecodeError
                  end
                else Raise JSONDecodeError
            | EmptyString => Raise JSONDecodeError
            end
          else Raise JSONDecodeError
      | EmptyString => Raise JSONDecodeError
      end
  end
with parse_elems (max_str_digits fuel : nat) (acc : list json) (s : string)
  {struct fuel} : result (json * string) :=
  match fuel with
  | O => Raise JSONDecodeError
  | S fuel' =>
      let* v := parse_value max_str_digits fuel' s in
      match skip_ws (snd v) with
      | String d s2 =>
          if Ascii.eqb d "]" then Ok (JList (rev (fst v :: acc)), s2)
          else if Ascii.eqb d ","
          then parse_elems max_str_digits fuel' (fst v :: acc) (skip_ws s2)
          else Raise JSONDecodeError
      | EmptyString => Raise JSONDecodeError
      end
  end.

(** [json.loads(s)]: one value between optional whitespace, and nothing
    after it. *)
Definition json_loads (max_str_digits : nat) (s : string) : result json :=
  let* v := parse_value max_str_digits (S (String.length s)) (skip_ws s) in
  match skip_ws (snd v) with
  | EmptyString => Ok (fst v)
  | _ => Raise JSONDecodeError
  end.

(** ** What the decoder accepts of the encoder's output *)

Definition max_of (l : list nat) : nat := fold_right Nat.max O l.

(** A bound on the nested calls the decoder makes for a value: one for
    the value, one for each element or member, and the calls of the
    deepest of them. *)
Fixpoint calls (v : json) : nat :=
  match v with
  | JList l => S (length l + max_of (map calls l))
  | JDict items => S (length items + max_of (map (fun '(_, x) => calls x) items))
  | _ => 1%nat
  end.

(** What follows a value in the encoder's output: nothing, a comma or a
    newline. *)
Definition ends_value (rest : string) : bool :=
  match rest with
  | EmptyString => true
  | String c _ => Ascii.eqb c "," || (code c =? 10)%N
  end.

(** The text of the members of an encoded dict, after the opening quote
    of the first key and up to [rest], the text after the closing brace. *)
Fixpoint members_tail (level : nat) (items : list (string * json)) (rest : string) : string :=
  match items with
  | [] => EmptyString
  | (k, v) :: items' =>
      escape k ++ String dquote (": " ++ dumps_indent (S level) v
        ++ match items' with
           | [] => newline_indent level ++ String "}" rest
           | _ => String "," (newline_indent (S level)
                                ++ String dquote (members_tail level items' rest))
           end)
  end.

(** The decoder reads the encoding of [v] back, whatever the indent level
    and the text after it. *)
Definition decodes (max_str_digits : nat) (v : json) : Prop :=
  forall (level : nat) (rest : string) (fuel : nat),
    well_formed v = true -> ints_in_limit max_str_digits v = true ->
    ends_value rest = true -> (calls v <= fuel)%nat ->
    parse_value max_str_digits fuel (dumps_indent level v ++ rest) = Ok (v, rest).

End JsonParse.

(** ** The world the agents act on *)

Module World.
Import Json.

(** What an agent does to the outside, in the order it does it. *)
Inductive event : Type :=
| EvRead (path : string) (found : bool)
| EvWrite (path : string)
| EvKickoff
| EvGetBlock
| EvRequestValidation (validator_agent_id : Z) (data_hash : list Byte.byte)
| EvSubmitResponse (data_hash : list Byte.byte) (score : json).

(** The files under the working directory, by path, and the events so
    far, oldest first. *)
Record world : Type := World {
  files : gmap string string;
  trace : list event
}.

(** A method: it runs in a world, returns or raises, and leaves a world
    behind.  What was written before an exception stays written. *)
Definition M (A : Type) : Type := world -> result A * world.

Definition ret {A : Type} (a : A) : M A := fun w => (Ok a, w).
Definition lift {A : Type} (r : result A) : M A := fun w => (r, w).

Definition bindM {A B : Type} (m : M A) (k : A -> M B) : M B :=
  fun w =>
    match m w with
    | (Ok a, w') => k a w'
    | (Raise e, w') => (Raise e, w')
    end.

(** [try: m except Exception: h] *)
Definition try_except {A : Type} (m : M A) (h : exn -> M A) : M A :=
  fun w =>
    match m w with
    | (Ok a, w') => (Ok a, w')
    | (Raise e, w') => h e w'
    end.

(** [with open(path, 'w') as f: json.dump(obj, f, indent=2)]: when the
    encoder raises, the file keeps what was written. *)
Definition write_json (max_str_digits : nat) (path : string) (obj : json) : M unit :=
  fun w =>
    let (text, whole) := dump_written max_str_digits 0 obj in
    (if whole then Ok tt else Raise ValueError,
     World (<[path := text]> (files w)) (trace w ++ [EvWrite path])).

(** [open(path, 'r')] and [f.read()]: [None] stands for
    [FileNotFoundError]. *)
Definition read_file (path : string) : M (option string) :=
  fun w =>
    (Ok (files w !! path),
     World (files w)
           (trace w ++ [EvRead path (match files w !! path with
                                     | Some _ => true
                                     | None => false
                                     end)])).

(** The agent and its collaborators: the interpreter's settings, the
    identity the registry gave the agent, and the outcome of each call
    to the outside in the world it is made in. *)
Record env : Type := Env {
  max_str_digits : nat;
  py_hash : string -> Z;
  agent_id : option Z;
  agent_domain : string;
  kickoff : world -> result string;
  block_timestamp : world -> result Z;
  request_validation : world -> Z -> list Byte.byte -> result string;
  submit_validation_response : world -> list Byte.byte -> json -> result string
}.

(** A call to the outside: the event, then the outcome. *)
Definition call {A : Type} (e : event) (outcome : world -> result A) : M A :=
  fun w =>
    let w' := World (files w) (trace w ++ [e]) in
    (outcome w', w').

End World.

Notation "'do*' x ':=' m 'in' k" := (World.bindM m (fun x => k))
  (at level 10, x name, m at level 100, k at level 200).

(** ** The server agent (server_agent.py) *)

Module Server.
Import PyStr Json Fallback World.

Definition is_ascii_lower (c : ascii) : bool :=
  let n := code c in ((97 <=? n) && (n <=? 122))%N.
Definition is_ascii_upper (c : ascii) : bool :=
  let n := code c in ((65 <=? n) && (n <=? 90))%N.

(** [s.title()] for ASCII text: the first letter of every run of
    letters in upper case, the others in lower case.  It is applied to
    the trend, an ASCII word. *)
Fixpoint title_from (in_word : bool) (s : string) : string :=
  match s with
  | EmptyString => EmptyString
  | String c s' =>
      if is_ascii_lower c then
        String (if in_word then c else ascii_of_N (code c - 32)) (title_from true s')
      else if is_ascii_upper c then
        String (if in_word then ascii_of_N (code c + 32) else c) (title_from true s')
      else String c (title_from false s')
  end.

Definition title (s : string) : string := title_from false s.

(** Commas between groups of three digits, the digits given last first. *)
Fixpoint group3 (k : nat) (rev_digits : list ascii) (acc : string) : string :=
  match rev_digits with
  | [] => acc
  | d :: ds =>
      match k, ds with
      | 2%nat, _ :: _ => group3 0 ds (String "," (String d acc))
      | _, _ => group3 (S k) ds (String d acc)
      end
  end.

(** [format(n, ',')] for an [int]. *)
Definition format_comma (n : Z) : string :=
  (if n <? 0 then "-" else EmptyString)
    ++ group3 0 (rev (list_ascii_of_string (str_of_int (Z.abs n)))) EmptyString.

(** [d[key]] *)
Definition getitem (d : list (string * json)) (key : string) : result json :=
  match dict_get key d with
  | Some v => Ok v
  | None => Raise KeyError
  end.

(** [f"{d[key]}"] *)
Definition fmt (max_str_digits : nat) (d : list (string * json)) (key : string)
  : result string :=
  let* v := getitem d key in str max_str_digits v.

(** [f"{d[key].title()}"] *)
Definition fmt_title (d : list (string * json)) (key : string) : result string :=
  let* v := getitem d key in
  match v with
  | JStr s => Ok (title s)
  | _ => Raise AttributeError
  end.

(** [f"{d[key]:,}"] *)
Definition fmt_comma (max_str_digits : nat) (d : list (string * json)) (key : string)
  : result string :=
  let* v := getitem d key in
  match v with
  | JInt n => checked max_str_digits v (format_comma n)
  | JBool b => Ok (if b then "1" else "0")
  | _ => Raise ValueError
  end.

(** [ServerAgent._create_fallback_analysis]; [hash] is the interpreter's
    [hash] on strings. *)
Definition _create_fallback_analysis (max_str_digits : nat) (hash : string -> Z)
  (symbol timeframe : string) : result string :=
  let analysis :=
    [ ("symbol", JStr symbol);
      ("timeframe", JStr timeframe);
      ("trend", JStr (if hash symbol mod 2 =? 0 then "bullish" else "bearish"));
      ("confidence", JInt 75);
      ("support_level", JInt (if String.eqb symbol "BTC" then 45000 else 2800));
      ("resistance_level", JInt (if String.eqb symbol "BTC" then 52000 else 3200));
      ("recommendation", JStr (if hash symbol mod 2 =? 0 then "BUY" else "HOLD"));
      ("risk_level", JStr "medium");
      ("analysis_note", JStr "This is a fallback analysis generated without LLM. For full AI-powered analysis, please configure OPENAI_API_KEY.") ] in
  let* trend := fmt max_str_digits analysis "trend" in
  let* risk_level := fmt max_str_digits analysis "risk_level" in
  let* trend_title := fmt_title analysis "trend" in
  let* support_level := fmt_comma max_str_digits analysis "support_level" in
  let* resistance_level := fmt_comma max_str_digits analysis "resistance_level" in
  let* confidence := fmt max_str_digits analysis "confidence" in
  let* recommendation := fmt max_str_digits analysis "recommendation" in
  let* analysis_note := fmt max_str_digits analysis "analysis_note" in
  let* risk_level' := fmt max_str_digits analysis "risk_level" in
  Ok (lines
    [ EmptyString;
      "# Market Analysis Report for " ++ symbol;
      EmptyString;
      "## Executive Summary";
      "Based on technical analysis of " ++ symbol ++ " over the " ++ timeframe
        ++ " timeframe, the market shows a **" ++ trend ++ "** trend with **"
        ++ risk_level ++ "** risk levels.";
      EmptyString;
      "## Key Findings";
      "- **Current Trend**: " ++ trend_title;
      "- **Support Level**: $" ++ support_level;
      "- **Resistance Level**: $" ++ resistance_level;
      "- **Confidence Level**: " ++ confidence ++ "%";
      EmptyString;
      "## Recommendation";
      "**" ++ recommendation ++ "** - " ++ analysis_note;
      EmptyString;
      "## Risk Assessment";
      "The current market conditions present " ++ risk_level'
        ++ " risk levels. Traders should exercise appropriate caution and position sizing.";
      EmptyString;
      "*Note: This analysis was generated using fallback logic. For AI-powered analysis with CrewAI, please configure your OpenAI API key.*";
      EmptyString ]).

Definition json_of_id (id : option Z) : json :=
  match id with Some n => JInt n | None => JNull end.

(** [ServerAgent.perform_market_analysis]; [kickoff] stands for the
    making of the tasks and the crew and for [str(crew.kickoff())], and
    the crew's two agents and two tasks are counted in the metadata. *)
Definition perform_market_analysis (e : env) (symbol timeframe : string) : M json :=
  do* result := try_except (call EvKickoff (kickoff e))
                  (fun _ => lift (_create_fallback_analysis (max_str_digits e) (py_hash e)
                                     symbol timeframe)) in
  do* timestamp := call EvGetBlock (block_timestamp e) in
  ret (JDict
    [ ("symbol", JStr symbol);
      ("timeframe", JStr timeframe);
      ("timestamp", JInt timestamp);
      ("agent_id", json_of_id (agent_id e));
      ("agent_domain", JStr (agent_domain e));
      ("analysis", JStr result);
      ("metadata", JDict
         [ ("crew_agents", JInt 2);
           ("tasks_completed", JInt 2);
           ("analysis_method", JStr "CrewAI Multi-Agent Analysis") ]) ]).

(** The content hash of a package:
    [hashlib.sha256(json.dumps(p, sort_keys=True).encode()).digest()]. *)
Definition content_hash (max_str_digits : nat) (analysis_package : json)
  : result (list Byte.byte) :=
  let* analysis_json := dumps max_str_digits analysis_package in
  Ok (Sha256.digest (Sha256.utf8 analysis_json)).

Definition package_path (data_hash : string) : string := "data/" ++ data_hash ++ ".json".

(** [ServerAgent._store_analysis_package] *)
Definition _store_analysis_package (max_str_digits : nat) (data_hash : string)
  (analysis_package : json) : M unit :=
  write_json max_str_digits (package_path data_hash) analysis_package.

(** [ServerAgent.submit_work_for_validation]; the validator's id is
    formatted for the console before the package is stored. *)
Definition submit_work_for_validation (e : env) (analysis_package : json)
  (validator_agent_id : Z) : M string :=
  do* data_hash := lift (content_hash (max_str_digits e) analysis_package) in
  do* _ := lift (str (max_str_digits e) (JInt validator_agent_id)) in
  do* _ := _store_analysis_package (max_str_digits e) (Sha256.hex data_hash)
             analysis_package in
  do* tx_hash := call (EvRequestValidation validator_agent_id data_hash)
                   (fun w => request_validation e w validator_agent_id data_hash) in
  ret tx_hash.

End Server.

(** ** The validator agent (validator_agent.py) *)

Module Validator.
Import PyStr Json JsonParse Fallback Extractor World.

Definition package_path (data_hash : string) : string := "data/" ++ data_hash ++ ".json".
Definition validation_path (data_hash : string) : string :=
  "validations/" ++ data_hash ++ ".json".

(** [ValidatorAgent._load_analysis_package]: [None] when the file is
    not there; an error of [json.load] is not caught. *)
Definition _load_analysis_package (e : env) (data_hash : string) : M (option json) :=
  do* text := read_file (package_path data_hash) in
  match text with
  | None => ret None
  | Some t =>
      do* obj := lift (json_loads (max_str_digits e) t) in
      ret (Some obj)
  end.

(** The truth value of a loaded object: [None], [False], [0] and the
    empty string, list and dict are false. *)
Definition truthy (v : json) : bool :=
  match v with
  | JNull => false
  | JBool b => b
  | JInt n => negb (n =? 0)
  | JStr s => negb (String.eqb s EmptyString)
  | JList l => match l with [] => false | _ => true end
  | JDict items => match items with [] => false | _ => true end
  end.

Definition not_found : json :=
  JDict [ ("error", JStr "Analysis package not found");
          ("score", JInt 0);
          ("validation_complete", JBool false) ].

Definition json_of_id (id : option Z) : json :=
  match id with Some n => JInt n | None => JNull end.

(** The [metadata] entry of a validation package. *)
Definition validation_metadata : json :=
  JDict [ ("validation_method", JStr "CrewAI Multi-Agent Validation");
          ("validator_agents", JInt 2);
          ("validation_tasks", JInt 2) ].

(** The dict [validate_analysis] returns for a validated package. *)
Definition validation_package (e : env) (data_hash : string) (timestamp validation_score : Z)
  (result : string) (analysis_package : json) : json :=
  JDict [ ("data_hash", JStr data_hash);
          ("validator_agent_id", json_of_id (agent_id e));
          ("validator_domain", JStr (agent_domain e));
          ("timestamp", JInt timestamp);
          ("validation_score", JInt validation_score);
          ("validation_report", JStr result);
          ("original_analysis", analysis_package);
          ("metadata", validation_metadata) ].

(** [ValidatorAgent.validate_analysis]; the package is encoded for the
    description of the first task, and [kickoff] stands for the making
    of the tasks and the crew and for [str(crew.kickoff())]. *)
Definition validate_analysis (e : env) (data_hash : string) : M json :=
  do* loaded := _load_analysis_package e data_hash in
  match loaded with
  | None => ret not_found
  | Some analysis_package =>
      if negb (truthy analysis_package) then ret not_found
      else
        do* _ := lift (dumps2 (max_str_digits e) analysis_package) in
        do* result := try_except (call EvKickoff (kickoff e))
                        (fun _ => lift (_create_fallback_validation (max_str_digits e)
                                          analysis_package)) in
        let validation_score := _extract_validation_score (max_str_digits e) result in
        do* timestamp := call EvGetBlock (block_timestamp e) in
        ret (validation_package e data_hash timestamp validation_score result analysis_package)
  end.

Definition is_hex_space (c : ascii) : bool :=
  let n := code c in ((n =? 32) || (9 <=? n) && (n <=? 13))%N.

(** [bytes.fromhex(s)]: pairs of hexadecimal digits, with ASCII
    whitespace between the pairs. *)
Fixpoint fromhex (s : string) : result (list Byte.byte) :=
  match s with
  | EmptyString => Ok []
  | String a s' =>
      if is_hex_space a then fromhex s'
      else
        match s' with
        | String b s'' =>
            match hex_val a, hex_val b with
            | Some x, Some y =>
                let* rest := fromhex s'' in
                Ok (Sha256.byte_of_Z (Z.of_N (x * 16 + y)) :: rest)
            | _, _ => Raise ValueError
            end
        | EmptyString => Raise ValueError
        end
  end.

(** [obj[key]] with a string key: only a dict can be indexed by it. *)
Definition getitem (obj : json) (key : string) : result json :=
  match obj with
  | JDict items =>
      match dict_get key items with
      | Some v => Ok v
      | None => Raise KeyError
      end
  | _ => Raise TypeError
  end.

(** [ValidatorAgent._store_validation_package] *)
Definition _store_validation_package (max_str_digits : nat) (data_hash : string)
  (validation_package : json) : M unit :=
  write_json max_str_digits (validation_path data_hash) validation_package.

(** [ValidatorAgent.submit_validation_response]; the hash and the score
    are formatted for the console before the package is stored. *)
Definition submit_validation_response (e : env) (validation_package : json) : M string :=
  do* h := lift (getitem validation_package "data_hash") in
  do* data_hash :=
    lift (match h with JStr s => fromhex s | _ => Raise TypeError end) in
  do* score := lift (getitem validation_package "validation_score") in
  do* _ := lift (str (max_str_digits e) score) in
  do* path_hash := lift (str (max_str_digits e) h) in
  do* _ := _store_validation_package (max_str_digits e) path_hash validation_package in
  do* tx_hash := call (EvSubmitResponse data_hash score)
                   (fun w => World.submit_validation_response e w data_hash score) in
  ret tx_hash.

End Validator.

(** ** The validation step of the demonstration (demo.py) *)

Module Demo.
Import Json Fallback World Validator.

(** [demonstrate_validation(bob, analysis_package)] *)
Definition demonstrate_validation (bob : env) (analysis_package : json) : M (option json) :=
  try_except
    (do* digest := lift (Server.content_hash (max_str_digits bob) analysis_package) in
     let data_hash := Sha256.hex digest in
     do* validation_package := validate_analysis bob data_hash in
     do* error := lift (py_get validation_package "error" JNull) in
     if truthy error then ret None
     else
       do* _ := lift (getitem validation_package "validation_score") in
       do* metadata := lift (getitem validation_package "metadata") in
       do* _ := lift (getitem metadata "validation_method") in
       do* _ := submit_validation_response bob validation_package in
       ret (Some validation_package))
    (fun _ => ret None).

End Demo.

(** ** A sample exchange *)

Module Sample.
Import Json World.

Definition analysis_package : json :=
  JDict [ ("symbol", JStr "BTC");
          ("timeframe", JStr "1d");
          ("timestamp", JInt 1000);
          ("agent_id", JInt 7);
          ("agent_domain", JStr "alice.example");
          ("analysis", JStr "Trend is bullish, support at 45000, recommendation BUY, risk medium");
          ("metadata", JDict [ ("crew_agents", JInt 2);
                               ("tasks_completed", JInt 2);
                               ("analysis_method", JStr "CrewAI Multi-Agent Analysis") ]) ].

Definition data_hash : string :=
  match Server.content_hash 4300 analysis_package with
  | Ok digest => Sha256.hex digest
  | Raise _ => EmptyString
  end.

(** The store after the package was submitted. *)
Definition submitted : world :=
  World (<[Server.package_path data_hash := dumps_indent 0 analysis_package]> ∅) [].

(** A validator whose engine is down. *)
Definition bob_engine_down : env :=
  Env 4300 (fun _ => 0) (Some 2) "bob.example"
      (fun _ => Raise EngineError) (fun _ => Ok 1700000000)
      (fun _ _ _ => Ok "0x01") (fun _ _ _ => Ok "0x02").

(** A validator whose engine answers with the text [report]. *)
Definition bob_engine_says (report : string) : env :=
  Env 4300 (fun _ => 0) (Some 2) "bob.example"
      (fun _ => Ok report) (fun _ => Ok 1700000000)
      (fun _ _ _ => Ok "0x01") (fun _ _ _ => Ok "0x02").

(** The report of the fallback validation of the sample package. *)
Definition fallback_report : string :=
  match Fallback._create_fallback_validation 4300 analysis_package with
  | Ok report => report
  | Raise _ => EmptyString
  end.

End Sample.
(** ** The market analysis tool (server_agent.py) *)

Module MarketAnalysisTool.
Import PyStr Json.

(** The dict [MarketAnalysisTool._run] encodes. *)
Definition analysis (hash : string -> Z) (symbol timeframe : string) : json :=
  JDict
    [ ("symbol", JStr symbol);
      ("timeframe", JStr timeframe);
      ("price_trend", JStr (if hash symbol mod 2 =? 0 then "bullish" else "bearish"));
      ("confidence", JInt 85);
      ("key_levels",
       JDict [ ("support", JInt (if String.eqb symbol "BTC" then 45000 else 2800));
               ("resistance", JInt (if String.eqb symbol "BTC" then 52000 else 3200)) ]);
      ("recommendation", JStr (if hash symbol mod 2 =? 0 then "BUY" else "HOLD"));
      ("risk_level", JStr "medium") ].

(** [MarketAnalysisTool._run]; [hash] is the interpreter's [hash] on
    strings. *)
Definition _run (max_str_digits : nat) (hash : string -> Z) (symbol timeframe : string)
  : result string :=
  dumps2 max_str_digits (analysis hash symbol timeframe).

End MarketAnalysisTool.

(** ** The analysis step of the demonstration (demo.py) *)

Module DemoAnalysis.
Import Json World.

(** [demonstrate_market_analysis(alice, bob_id)]; the fields of the
    package and the validator's id are formatted for the console. *)
Definition demonstrate_market_analysis (alice : env) (bob_id : Z) : M (option json) :=
  try_except
    (do* analysis_package := Server.perform_market_analysis alice "BTC" "1d" in
     do* symbol := lift (Validator.getitem analysis_package "symbol") in
     do* _ := lift (str (max_str_digits alice) symbol) in
     do* timestamp := lift (Validator.getitem analysis_package "timestamp") in
     do* _ := lift (str (max_str_digits alice) timestamp) in
     do* metadata := lift (Validator.getitem analysis_package "metadata") in
     do* analysis_method := lift (Validator.getitem metadata "analysis_method") in
     do* _ := lift (str (max_str_digits alice) analysis_method) in
     do* _ := lift (str (max_str_digits alice) (JInt bob_id)) in
     do* validation_tx := Server.submit_work_for_validation alice analysis_package bob_id in
     ret (Some analysis_package))
    (fun _ => ret None).

End DemoAnalysis.

(** * Properties *)

(** ** Strings *)

Section StringFacts.

Lemma lower_char_idempotent (c : ascii) :
  PyStr.lower_char (PyStr.lower_char c) = PyStr.lower_char c.
Proof. destruct c as [[] [] [] [] [] [] [] []]; reflexivity. Qed.

Lemma lower_idempotent (s : string) : PyStr.lower (PyStr.lower s) = PyStr.lower s.
Proof.
  induction s as [|c s IH]; simpl; [reflexivity|].
  now rewrite lower_char_idempotent, IH.
Qed.

Lemma string_app_cons (x : ascii) (a b : string) :
  (String x a ++ b)%string = String x (a ++ b).
Proof. reflexivity. Qed.

Lemma string_app_nil_l (b : string) : (EmptyString ++ b)%string = b.
Proof. reflexivity. Qed.

Lemma string_app_assoc (a b c : string) : ((a ++ b) ++ c = a ++ (b ++ c))%string.
Proof.
  induction a as [|x a IH]; [reflexivity|].
  now rewrite !string_app_cons, IH.
Qed.

Lemma string_app_nil_r (a : string) : (a ++ EmptyString)%string = a.
Proof. induction a as [|x a IH]; [reflexivity|]. now rewrite string_app_cons, IH. Qed.

Lemma string_length_app (a b : string) :
  String.length (a ++ b) = (String.length a + String.length b)%nat.
Proof.
  induction a as [|x a IH]; [reflexivity|].
  rewrite string_app_cons. simpl. now rewrite IH.
Qed.

End StringFacts.

(** ** The score extractor *)

Module ExtractorFacts.
Import PyStr Re Extractor.

Lemma scan_clamped (max_str_digits : nat) (ps : list regex) (text : string) (n : Z) :
  scan max_str_digits ps text = Ok n -> 0 <= n <= 100.
Proof.
  induction ps as [|p ps IH]; simpl.
  - intros [= <-]. unfold keyword_score.
    repeat match goal with |- context [if ?b then _ else _] => destruct b end; lia.
  - destruct (findall p (lower text)) as [|m ms]; [exact IH|].
    destruct (py_int max_str_digits (last_match (m :: ms))) as [k|e]; simpl; [|discriminate].
    intros [= <-]. lia.
Qed.

Lemma scan_no_match (max_str_digits : nat) (ps : list regex) (text : string) :
  Forall (fun p => findall p (lower text) = []) ps ->
  scan max_str_digits ps text = Ok (keyword_score (lower text)).
Proof.
  induction 1 as [|p ps Hp _ IH]; simpl; [reflexivity|]. now rewrite Hp.
Qed.

Lemma keyword_score_default (t : string) :
  Forall (fun k => contains k t = false) sentiment_keywords -> keyword_score t = 70.
Proof.
  unfold sentiment_keywords, keyword_score. intros H.
  repeat match goal with
         | H : Forall _ (_ :: _) |- _ => inversion H as [|? ? ?Hk ?Hr]; subst; clear H
         end.
  repeat match goal with Hk : contains _ _ = false |- _ => rewrite Hk; clear Hk end.
  reflexivity.
Qed.

(** The first pattern with a match decides, whatever patterns follow. *)
Lemma scan_first_match (max_str_digits : nat) (ps1 : list regex) (p : regex)
      (ps2 : list regex) (text : string) :
  Forall (fun q => findall q (lower text) = []) ps1 ->
  findall p (lower text) <> [] ->
  scan max_str_digits (ps1 ++ p :: ps2) text =
  (let* score := py_int max_str_digits (last_match (findall p (lower text))) in
   Ok (Z.min 100 (Z.max 0 score))).
Proof.
  intros H1 Hp. induction H1 as [|q ps1 Hq _ IH]; simpl.
  - destruct (findall p (lower text)) as [|m ms]; [congruence|reflexivity].
  - now rewrite Hq.
Qed.

(** The score is between 0 and 100, whatever the text. *)
Lemma extract_in_range (max_str_digits : nat) (text : string) :
  0 <= _extract_validation_score max_str_digits text <= 100.
Proof.
  unfold _extract_validation_score.
  destruct (scan _ _ _) as [n|e] eqn:E; [|lia].
  apply scan_clamped in E. lia.
Qed.

End ExtractorFacts.

(** C1: for every input text the score extractor returns an integer between
    0 and 100; it has no outcome but a score, an exception raised while
    scanning being turned into 70; and when no score pattern and no
    sentiment keyword matches, as for the empty text, the score is 70. *)
Theorem extract_score_bounded (max_str_digits : nat) (text : string) :
  0 <= Extractor._extract_validation_score max_str_digits text <= 100
  /\ (forall e, Extractor.scan max_str_digits Extractor.score_patterns text = Raise e ->
                Extractor._extract_validation_score max_str_digits text = 70)
  /\ (Forall (fun p => Re.findall p (PyStr.lower text) = []) Extractor.score_patterns ->
      Forall (fun k => PyStr.contains k (PyStr.lower text) = false)
             Extractor.sentiment_keywords ->
      Extractor._extract_validation_score max_str_digits text = 70)
  /\ Extractor._extract_validation_score max_str_digits EmptyString = 70.
Proof.
  split; [apply ExtractorFacts.extract_in_range|].
  unfold Extractor._extract_validation_score. split; [|split].
  - intros e ->. reflexivity.
  - intros Hp Hk. rewrite (ExtractorFacts.scan_no_match _ _ _ Hp).
    now apply ExtractorFacts.keyword_score_default.
  - reflexivity.
Qed.

Lemma extract_score_bounded_witness :
  Extractor._extract_validation_score 4300 "no verdict was given" = 70.
Proof.
  apply (proj1 (proj2 (proj2 (extract_score_bounded 4300 "no verdict was given")))).
  - repeat constructor.
  - repeat constructor.
Defined.

(** C10: the score extractor is case-insensitive: a text and its lower-case
    form get the same score, so that "Score: 90" and "EXCELLENT" are read
    as "score: 90" and "excellent" are. *)
Theorem extract_score_case_insensitive (max_str_digits : nat) (text : string) :
  Extractor._extract_validation_score max_str_digits (PyStr.lower text)
  = Extractor._extract_validation_score max_str_digits text
  /\ Extractor._extract_validation_score max_str_digits "Score: 90" = 90
  /\ Extractor._extract_validation_score max_str_digits "EXCELLENT" = 95.
Proof.
  split; [|split; reflexivity].
  unfold Extractor._extract_validation_score.
  enough (H : forall ps, Extractor.scan max_str_digits ps (PyStr.lower text)
                         = Extractor.scan max_str_digits ps text) by now rewrite H.
  induction ps as [|p ps IH]; simpl; rewrite lower_idempotent; [reflexivity|].
  now rewrite IH.
Qed.

(** ** Matches of the score patterns *)

Module ReFacts.
Import PyStr Re Extractor.

Lemma has_char_app (x : ascii) (a b : string) :
  has_char x (a ++ b) = has_char x a || has_char x b.
Proof.
  induction a as [|c a IH]; [reflexivity|].
  rewrite string_app_cons. simpl. now rewrite IH, orb_assoc.
Qed.

Lemma has_char_all_in (cls : ascii -> bool) (x : ascii) (s : string) :
  cls x = false -> all_in cls s = true -> has_char x s = false.
Proof.
  intros Hx. induction s as [|c s IH]; simpl; [reflexivity|].
  intros [Hc Hs]%andb_true_iff. rewrite (IH Hs), orb_false_r.
  destruct (Ascii.eqb_spec c x) as [->|]; congruence.
Qed.

(** A text without [x] that starts [a ++ String x t] ends inside [a]. *)
Lemma app_before_char (x : ascii) (tail a t rest : string) :
  (a ++ String x t = tail ++ rest)%string ->
  has_char x tail = false ->
  exists a2, a = (tail ++ a2)%string /\ rest = (a2 ++ String x t)%string.
Proof.
  revert a. induction tail as [|y tail IH]; intros a E H.
  - exists a. now rewrite !string_app_nil_l in *.
  - simpl in H. apply orb_false_iff in H as [Hy Ht].
    destruct a as [|c a].
    + rewrite string_app_nil_l, string_app_cons in E. injection E as -> _.
      now rewrite Ascii.eqb_refl in Hy.
    + rewrite !string_app_cons in E. injection E as -> E.
      destruct (IH a E Ht) as (a2 & -> & ->). now exists a2.
Qed.

Lemma match_here_lits (kw : string) (r : regex) (s : string) (res : string * string) :
  match_here (lits kw ++ r)%list s = Some res ->
  exists s', s = (kw ++ s')%string /\ match_here r s' = Some res.
Proof.
  revert s. induction kw as [|c kw IH]; intros s; simpl.
  - intros H. now exists s.
  - destruct s as [|c' s]; [discriminate|].
    destruct (Ascii.eqb_spec c c') as [<-|]; [|discriminate].
    intros (s' & -> & H)%IH. now exists s'.
Qed.

Lemma plus_loop_shape (cls : ascii -> bool) (k : string -> option (string * string))
      (s : string) (res : string * string) :
  plus_loop cls k s = Some res ->
  exists seps s', s = (seps ++ s')%string /\ all_in cls seps = true /\ k s' = Some res.
Proof.
  induction s as [|c s IH]; simpl; [discriminate|].
  destruct (cls c) eqn:Hc; [|discriminate].
  destruct (plus_loop cls k s) as [m|] eqn:E.
  - intros [= <-]. destruct (IH eq_refl) as (seps & s' & -> & Hs & Hk).
    exists (String c seps), s'. simpl. now rewrite Hc, Hs.
  - intros Hk. exists (String c EmptyString), s. simpl. now rewrite Hc.
Qed.

Lemma group_loop_shape (cls : ascii -> bool) (k : string -> option (string * string))
      (s g rest : string) :
  group_loop cls k s = Some (g, rest) ->
  exists s' g', s = (g ++ s')%string /\ all_in cls g = true /\ k s' = Some (g', rest).
Proof.
  revert g. induction s as [|c s IH]; intros g; simpl; [discriminate|].
  destruct (cls c) eqn:Hc; [|discriminate].
  destruct (group_loop cls k s) as [[g0 rest0]|] eqn:E.
  - intros [= <- <-]. destruct (IH g0 eq_refl) as (s' & g' & -> & Hs & Hk).
    exists s', g'. simpl. now rewrite Hc, Hs.
  - destruct (k s) as [[g' rest']|] eqn:Hk; [|discriminate].
    intros [= <- <-]. exists s, g'. simpl. now rewrite Hc.
Qed.

(** A match of a keyword pattern is the keyword, separators and digits. *)
Lemma keyword_match_shape (kw s g rest : string) :
  match_here (keyword_pattern kw) s = Some (g, rest) ->
  exists seps, s = (kw ++ seps ++ g ++ rest)%string
               /\ all_in colon_or_space seps = true /\ all_in is_digit g = true.
Proof.
  intros (s1 & -> & H)%match_here_lits. simpl in H.
  apply plus_loop_shape in H as (seps & s2 & -> & Hseps & H).
  apply group_loop_shape in H as (s3 & g' & -> & Hg & H).
  injection H as _ ->. now exists seps.
Qed.

(** A character [x] that is neither in the tail of the keyword, nor a
    separator, nor a digit can only be in a match as its first
    character: a match that starts before [x] ends before it. *)
Lemma keyword_match_before (k0 : ascii) (kw a t g rest : string) (x : ascii) :
  has_char x kw = false -> colon_or_space x = false -> is_digit x = false ->
  match_here (keyword_pattern (String k0 kw)) (String k0 a ++ String x t) = Some (g, rest) ->
  exists a2, rest = (a2 ++ String x t)%string
             /\ (String.length a2 <= String.length a)%nat.
Proof.
  intros Hkw Hsep Hdig H.
  apply keyword_match_shape in H as (seps & E & Hseps & Hg).
  rewrite !string_app_cons in E. injection E as E.
  rewrite <- !string_app_assoc in E.
  apply app_before_char in E as (a2 & -> & ->).
  - exists a2. split; [reflexivity|]. rewrite string_length_app. lia.
  - rewrite !has_char_app, Hkw.
    rewrite (has_char_all_in _ _ _ Hsep Hseps), (has_char_all_in _ _ _ Hdig Hg).
    reflexivity.
Qed.

(** The matches of a keyword pattern in [a ++ String x t] are matches
    inside [a] followed by the matches in [String x t]. *)
Lemma findall_keyword_app (k0 : ascii) (kw : string) (x : ascii) (t a : string) (skip : nat) :
  has_char x kw = false -> colon_or_space x = false -> is_digit x = false ->
  (skip <= String.length a)%nat ->
  exists ms, findall_from (keyword_pattern (String k0 kw)) skip (a ++ String x t)
             = (ms ++ findall (keyword_pattern (String k0 kw)) (String x t))%list.
Proof.
  intros Hkw Hsep Hdig. revert skip.
  induction a as [|c a IH]; intros skip Hskip.
  - simpl in Hskip. assert (skip = 0%nat) as -> by lia. now exists [].
  - rewrite string_app_cons. destruct skip as [|skip].
    + cbn [findall_from].
      destruct (match_here _ (String c (a ++ String x t))) as [[g rest]|] eqn:E.
      * assert (c = k0) as ->.
        { unfold keyword_pattern in E. simpl in E.
          destruct (Ascii.eqb_spec k0 c); [congruence|discriminate]. }
        rewrite <- string_app_cons in E.
        apply keyword_match_before in E as (a2 & -> & Hlen); try assumption.
        destruct (IH (String.length (a ++ String x t) - String.length (a2 ++ String x t))%nat)
          as [ms Hms].
        { rewrite !string_length_app. lia. }
        exists (g :: ms). now rewrite Hms.
      * apply IH. lia.
    + cbn [findall_from]. apply IH. simpl in Hskip. lia.
Qed.

(** Greedy digits: the group takes all the digits there are. *)
Lemma group_loop_digits (g b : string) :
  g <> EmptyString -> all_in is_digit g = true -> starts_in is_digit b = false ->
  group_loop is_digit (match_here []) (g ++ b) = Some (g, b).
Proof.
  induction g as [|c g IH]; [congruence|]. intros _ Hg Hb.
  simpl in Hg. apply andb_true_iff in Hg as [Hc Hg].
  rewrite string_app_cons. cbn [group_loop]. rewrite Hc.
  destruct g as [|c' g].
  - rewrite string_app_nil_l.
    destruct b as [|y b]; [reflexivity|]. cbn [group_loop]. simpl in Hb. now rewrite Hb.
  - now rewrite IH.
Qed.

Lemma findall_from_skip (p : regex) (m b : string) :
  findall_from p (String.length m) (m ++ b) = findall_from p 0 b.
Proof.
  induction m as [|c m IH]; [reflexivity|]. rewrite string_app_cons. exact IH.
Qed.

Lemma match_here_lits_app (kw : string) (r : regex) (s : string) :
  match_here (lits kw ++ r)%list (kw ++ s) = match_here r s.
Proof.
  induction kw as [|c kw IH]; [reflexivity|].
  rewrite string_app_cons. simpl. now rewrite Ascii.eqb_refl.
Qed.

(** Separators ": " and digits [g], followed by [b]. *)
Lemma separators_digits_match (g b : string) :
  g <> EmptyString -> all_in is_digit g = true -> starts_in is_digit b = false ->
  match_here [Plus colon_or_space; Group is_digit] (String ":" (String " " (g ++ b)))
  = Some (g, b).
Proof.
  intros Hne Hg Hb.
  change (plus_loop colon_or_space (group_loop is_digit (match_here []))
            (String ":" (String " " (g ++ b))) = Some (g, b)).
  cbn [plus_loop].
  replace (colon_or_space ":") with true by reflexivity.
  replace (colon_or_space " ") with true by reflexivity.
  assert (N : plus_loop colon_or_space (group_loop is_digit (match_here [])) (g ++ b) = None).
  { destruct g as [|c g]; [congruence|]. rewrite string_app_cons. cbn [plus_loop].
    simpl in Hg. apply andb_true_iff in Hg as [Hc _].
    replace (colon_or_space c) with false; [reflexivity|].
    destruct c as [[] [] [] [] [] [] [] []]; try discriminate Hc; reflexivity. }
  rewrite N. now rewrite group_loop_digits.
Qed.

(** The matches of the first pattern in a text that goes on with
    "score: ", digits [g] and a rest [b]. *)
Lemma findall_score_literal (g b : string) :
  g <> EmptyString -> all_in is_digit g = true -> starts_in is_digit b = false ->
  findall (keyword_pattern "score") ("score: " ++ g ++ b)
  = g :: findall (keyword_pattern "score") b.
Proof.
  intros Hne Hg Hb. unfold findall.
  change ("score: " ++ g ++ b)%string with (String "s" ("core: " ++ (g ++ b))).
  cbn [findall_from].
  assert (E : match_here (keyword_pattern "score") (String "s" ("core: " ++ (g ++ b)))
              = Some (g, b)).
  { change (String "s" ("core: " ++ (g ++ b)))
      with ("score" ++ String ":" (String " " (g ++ b)))%string.
    unfold keyword_pattern. rewrite match_here_lits_app.
    now apply separators_digits_match. }
  rewrite E. f_equal.
  replace (String.length ("core: " ++ (g ++ b)) - String.length b)%nat
    with (String.length ("core: " ++ g)).
  - rewrite <- string_app_assoc. apply findall_from_skip.
  - rewrite !string_length_app. lia.
Qed.

(** The score of a text whose last "score: N" is [g]. *)
Lemma extract_last_score (max_str_digits : nat) (text a g b : string) :
  lower text = (a ++ "score: " ++ g ++ b)%string ->
  g <> EmptyString -> all_in is_digit g = true -> starts_in is_digit b = false ->
  findall (keyword_pattern "score") b = [] ->
  _extract_validation_score max_str_digits text =
  match py_int max_str_digits g with
  | Ok score => Z.min 100 (Z.max 0 score)
  | Raise _ => 70
  end.
Proof.
  intros E Hne Hg Hb Hnone.
  destruct (findall_keyword_app "s" "core" "s" ("core: " ++ g ++ b) a 0) as [ms Hms];
    try reflexivity; [lia|].
  change (String "s" ("core: " ++ g ++ b)) with ("score: " ++ g ++ b)%string in Hms.
  rewrite findall_score_literal, Hnone in Hms by assumption.
  unfold _extract_validation_score, score_patterns. cbn [scan].
  rewrite E. unfold findall at 1. rewrite Hms. destruct (ms ++ [g])%list as [|m ms'] eqn:L.
  { now destruct ms. }
  rewrite <- L. unfold last_match. rewrite last_last.
  now destruct (py_int max_str_digits g).
Qed.

End ReFacts.

(** C4 (as amended): the score patterns are tried in the order "score: N",
    "N/100", "N%", "overall: N"; the first pattern with a match decides,
    whatever the later patterns would find, and its last match in the text
    is the one converted.  So a text whose last "score: N" is "score: 40"
    scores 40 whatever percentages it has, and a text that ends with
    "score: 90" scores 90 whatever comes before. *)
Theorem extract_score_priority (max_str_digits : nat) (text : string) :
  Extractor.score_patterns
  = [ Extractor.keyword_pattern "score";
      ([Re.Group PyStr.is_digit] ++ Re.lits "/100")%list;
      [Re.Group PyStr.is_digit; Re.Lit "%"];
      Extractor.keyword_pattern "overall" ]
  /\ (forall ps1 p ps2,
         Extractor.score_patterns = (ps1 ++ p :: ps2)%list ->
         Forall (fun q => Re.findall q (PyStr.lower text) = []) ps1 ->
         Re.findall p (PyStr.lower text) <> [] ->
         Extractor._extract_validation_score max_str_digits text =
         match PyStr.py_int max_str_digits
                 (Extractor.last_match (Re.findall p (PyStr.lower text))) with
         | Ok score => Z.min 100 (Z.max 0 score)
         | Raise _ => 70
         end)
  /\ (forall a b,
         PyStr.lower text = (a ++ "score: 40" ++ b)%string ->
         PyStr.starts_in PyStr.is_digit b = false ->
         Re.findall (Extractor.keyword_pattern "score") b = [] ->
         Extractor._extract_validation_score max_str_digits text = 40)
  /\ (forall a,
         PyStr.lower text = (a ++ "score: 90")%string ->
         Extractor._extract_validation_score max_str_digits text = 90).
Proof.
  split; [reflexivity|]. split; [|split].
  - intros ps1 p ps2 E H1 Hp. unfold Extractor._extract_validation_score.
    rewrite E, ExtractorFacts.scan_first_match by assumption.
    now destruct (PyStr.py_int _ _).
  - intros a b E Hb Hnone.
    now rewrite (ReFacts.extract_last_score max_str_digits text a "40" b).
  - intros a E.
    rewrite (ReFacts.extract_last_score max_str_digits text a "90" EmptyString);
      try reflexivity; try congruence.
    now rewrite E.
Qed.

Lemma extract_score_priority_witness :
  Extractor._extract_validation_score 4300 "Score: 40 (85% of the checks passed)" = 40
  /\ Extractor._extract_validation_score 4300 "score: 10 ... score: 90" = 90
  /\ Extractor._extract_validation_score 4300 "it got 85%" = 85.
Proof.
  split; [|split].
  - apply (proj1 (proj2 (proj2 (extract_score_priority 4300
             "Score: 40 (85% of the checks passed)")))
             EmptyString " (85% of the checks passed)"); reflexivity.
  - apply (proj2 (proj2 (proj2 (extract_score_priority 4300 "score: 10 ... score: 90")))
             "score: 10 ... "); reflexivity.
  - apply (proj1 (proj2 (extract_score_priority 4300 "it got 85%"))
             [Extractor.keyword_pattern "score";
              ([Re.Group PyStr.is_digit] ++ Re.lits "/100")%list]
             [Re.Group PyStr.is_digit; Re.Lit "%"]
             [Extractor.keyword_pattern "overall"]).
    + reflexivity.
    + repeat constructor.
    + discriminate.
Defined.

(** A text with both "score: 40" and "85%" in it that does not score 40:
    a later "score: 90" is the last match of the first pattern. *)
Lemma extract_score_priority_counterexample :
  PyStr.contains "score: 40" "draft score: 40, 85% done; final score: 90" = true
  /\ PyStr.contains "85%" "draft score: 40, 85% done; final score: 90" = true
  /\ Extractor._extract_validation_score 4300 "draft score: 40, 85% done; final score: 90" = 90
  /\ Extractor._extract_validation_score 4300 "draft score: 40, 85% done; final score: 90" <> 40.
Proof. repeat split; vm_compute; congruence. Qed.

(** ** The fallback validation *)

Module FallbackFacts.
Import PyStr Json PyFloat Fallback.

Lemma missing_in_dict (items : list (string * json)) (fields : list string) :
  missing_in (JDict items) fields
  = Ok (List.filter (fun field => negb (dict_mem field items)) fields).
Proof.
  induction fields as [|f fields IH]; [reflexivity|].
  cbn [missing_in py_in bind List.filter]. rewrite IH. cbn [bind].
  now destruct (dict_mem f items).
Qed.

Lemma filter_length_le {A : Type} (f : A -> bool) (l : list A) :
  (length (List.filter f l) <= length l)%nat.
Proof. induction l as [|x l IH]; simpl; [lia|]. destruct (f x); simpl; lia. Qed.

(** The float arithmetic of the scores is exact: with [nm] missing fields
    and [k] components found, the methodology score is the float 20 k
    and the overall score is the truncated mean. *)
Lemma float_scores (nm k : nat) :
  (nm <= 4)%nat -> (k <= 5)%nat ->
  let c := Z.max 0 (100 - Z.of_nat nm * 25) in
  let m := (float_of_int (Z.of_nat k) / float_of_int 5 * float_of_int 100)%float in
  m = float_of_int (100 * Z.of_nat k / 5)
  /\ int_of_float ((float_of_int c + m) / float_of_int 2)%float
     = Ok (Z.quot (c + 100 * Z.of_nat k / 5) 2).
Proof.
  intros Hnm Hk.
  do 5 (destruct nm as [|nm]; [do 6 (destruct k as [|k]; [split; reflexivity|]); lia|]).
  lia.
Qed.

(** The values of a dict within the digit limit are within it. *)
Lemma dict_get_in_limit (max_str_digits : nat) (key : string) (items : list (string * json))
      (v : json) :
  ints_in_limit max_str_digits (JDict items) = true ->
  dict_get key items = Some v -> ints_in_limit max_str_digits v = true.
Proof.
  induction items as [|[k x] items IH]; [discriminate|].
  cbn [ints_in_limit forallb dict_get]. intros [Hx Hr]%andb_prop.
  destruct (String.eqb key k); [now intros [= <-]|]. now apply IH.
Qed.

Lemma analysis_in_limit (max_str_digits : nat) (items : list (string * json)) :
  ints_in_limit max_str_digits (JDict items) = true ->
  ints_in_limit max_str_digits (analysis_of items) = true.
Proof.
  intros H. unfold analysis_of.
  destruct (dict_get "analysis" items) as [v|] eqn:E; [|reflexivity].
  exact (dict_get_in_limit _ _ _ _ H E).
Qed.

Lemma fallback_scores_dict (max_str_digits : nat) (items : list (string * json)) :
  ints_in_limit max_str_digits (analysis_of items) = true ->
  let missing := List.filter (fun field => negb (dict_mem field items)) required_fields in
  let text := lower (py_str (analysis_of items)) in
  let found := List.filter (fun comp => contains comp text) key_components in
  let completeness := Z.max 0 (100 - 25 * len missing) in
  let methodology := 100 * len found / 5 in
  fallback_scores max_str_digits (JDict items)
  = Ok (Scores missing completeness found (float_of_int methodology)
               (Z.quot (completeness + methodology) 2)).
Proof.
  intros Hlimit missing text found completeness methodology.
  unfold fallback_scores. rewrite missing_in_dict. cbn [bind py_get].
  fold (analysis_of items). unfold str, checked. rewrite Hlimit. cbn [bind].
  fold missing. fold text. fold found.
  assert (Hnm : (length missing <= 4)%nat) by apply filter_length_le.
  assert (Hk : (length found <= 5)%nat) by apply filter_length_le.
  destruct (float_scores (length missing) (length found) Hnm Hk) as [Hm Ho].
  assert (Hc : match missing with [] => 100 | _ :: _ => Z.max 0 (100 - len missing * 25) end
               = completeness).
  { unfold completeness, len. destruct missing; [reflexivity|lia]. }
  rewrite Hc. change (len key_components) with 5.
  unfold completeness, methodology, len in *.
  replace (100 - 25 * Z.of_nat (length missing)) with (100 - Z.of_nat (length missing) * 25)
    by lia.
  rewrite Ho. cbn [bind]. rewrite Hm. reflexivity.
Qed.

(** The fallback validation of a dict returns a report. *)
Lemma fallback_validation_ok (max_str_digits : nat) (items : list (string * json)) :
  ints_in_limit max_str_digits (analysis_of items) = true ->
  exists report, _create_fallback_validation max_str_digits (JDict items) = Ok report.
Proof.
  intros Hlimit. unfold _create_fallback_validation.
  pose proof (fallback_scores_dict max_str_digits items Hlimit) as H. cbv zeta in H.
  rewrite H. eexists. reflexivity.
Qed.

(** An [int] beyond the digit limit in the analysis makes [str] raise. *)
Lemma fallback_validation_beyond_limit (max_str_digits : nat)
      (items : list (string * json)) :
  ints_in_limit max_str_digits (analysis_of items) = false ->
  _create_fallback_validation max_str_digits (JDict items) = Raise ValueError.
Proof.
  intros Hlimit. unfold _create_fallback_validation, fallback_scores.
  rewrite missing_in_dict. cbn [bind py_get].
  fold (analysis_of items). unfold str, checked. now rewrite Hlimit.
Qed.

(** An element of a joined list is a part of the text. *)
Lemma join_element (sep : string) (l1 : list string) (x : string) (l2 : list string) :
  exists pre post, join sep (l1 ++ x :: l2)%list = (pre ++ x ++ post)%string.
Proof.
  induction l1 as [|y l1 (pre & post & IH)].
  - exists EmptyString. destruct l2 as [|z l2].
    + exists EmptyString. simpl. now rewrite string_app_nil_r.
    + now exists (sep ++ join sep (z :: l2))%string.
  - exists (y ++ sep ++ pre)%string, post.
    replace (join sep ((y :: l1) ++ x :: l2)%list)
      with (y ++ sep ++ join sep (l1 ++ x :: l2)%list)%string
      by now destruct l1.
    now rewrite IH, !string_app_assoc.
Qed.

End FallbackFacts.

(** C5: for every package dictionary the fallback validation computes the
    completeness score max(0, 100 - 25 m), m being the number of the four
    required fields that are missing (75 when only the timestamp is
    missing), the methodology score 100 k / 5, k being the number of the
    five key components found in the lower-cased analysis text, and writes
    a report with the line "Overall Validation Score" that gives the mean
    of the two scores, truncated to an integer.  The analysis is made a
    text with [str], whatever it is: an analysis that is not a string is
    to have its ints within the interpreter's digit limit. *)
Theorem fallback_validation_scores (max_str_digits : nat)
        (items : list (string * Json.json)) :
  Json.ints_in_limit max_str_digits (Fallback.analysis_of items) = true ->
  let missing :=
    List.filter (fun field => negb (Json.dict_mem field items)) Fallback.required_fields in
  let text := PyStr.lower (Json.py_str (Fallback.analysis_of items)) in
  let found := List.filter (fun comp => PyStr.contains comp text) Fallback.key_components in
  let completeness := Z.max 0 (100 - 25 * Fallback.len missing) in
  let methodology := 100 * Fallback.len found / 5 in
  let overall := Z.quot (completeness + methodology) 2 in
  Fallback.fallback_scores max_str_digits (Json.JDict items)
  = Ok (Fallback.Scores missing completeness found (PyFloat.float_of_int methodology) overall)
  /\ (exists pre post,
         Fallback._create_fallback_validation max_str_digits (Json.JDict items)
         = Ok (pre ++ "### Overall Validation Score: " ++ PyStr.str_of_int overall ++ "/100"
                   ++ post)%string)
  /\ (missing = ["timestamp"] -> completeness = 75).
Proof.
  intros Hlimit missing text found completeness methodology overall.
  pose proof (FallbackFacts.fallback_scores_dict max_str_digits items Hlimit) as H.
  cbv zeta in H.
  fold missing text found completeness methodology overall in H.
  split; [exact H|]. split.
  - unfold Fallback._create_fallback_validation. rewrite H. cbn [bind].
    unfold Fallback.validation_report, Fallback.lines.
    cbn [Fallback.overall_score].
    match goal with
    | |- context [PyStr.join ?sep (?l0 :: ?l1 :: ?l2 :: ?l3 :: ?l4 :: ?l5 :: ?l6 :: ?l7
                                     :: ?l8 :: ?l9 :: ?l10 :: ?l11 :: ?l12 :: ?x :: ?rest)] =>
        destruct (FallbackFacts.join_element sep
                    [l0; l1; l2; l3; l4; l5; l6; l7; l8; l9; l10; l11; l12] x rest)
          as (pre & post & E)
    end.
    exists pre, post. f_equal. rewrite <- !string_app_assoc in *. exact E.
  - intros E. unfold completeness. now rewrite E.
Qed.

Lemma fallback_validation_scores_witness :
  Z.max 0 (100 - 25 * Fallback.len
     (List.filter
        (fun field =>
           negb (Json.dict_mem field
                   [("symbol", Json.JStr "BTC"); ("analysis", Json.JStr "trend and risk");
                    ("agent_id", Json.JInt 7)]))
        Fallback.required_fields)) = 75.
Proof.
  apply (proj2 (proj2 (fallback_validation_scores 4300
           [("symbol", Json.JStr "BTC"); ("analysis", Json.JStr "trend and risk");
            ("agent_id", Json.JInt 7)] eq_refl))).
  reflexivity.
Defined.

(** C9: both fallback generators return a report and raise nothing: the
    analysis generator for any symbol and timeframe (whatever the
    interpreter's string hash is), the validation generator for any package
    dictionary whose analysis is a string or is missing, and for any other
    analysis that [str] converts (one with no int beyond the interpreter's
    digit limit); the empty dictionary and an empty analysis text give
    scores of 0. *)
Theorem fallback_generators_total (max_str_digits : nat) :
  (forall (hash : string -> Z) (symbol timeframe : string),
      exists report,
        Server._create_fallback_analysis max_str_digits hash symbol timeframe = Ok report)
  /\ (forall items : list (string * Json.json),
         Json.ints_in_limit max_str_digits (Fallback.analysis_of items) = true ->
         exists report,
           Fallback._create_fallback_validation max_str_digits (Json.JDict items) = Ok report)
  /\ (forall items : list (string * Json.json),
         (Json.dict_get "analysis" items = None
          \/ exists s, Json.dict_get "analysis" items = Some (Json.JStr s)) ->
         exists report,
           Fallback._create_fallback_validation max_str_digits (Json.JDict items) = Ok report)
  /\ (exists report,
         Fallback._create_fallback_validation max_str_digits (Json.JDict []) = Ok report
         /\ Fallback.fallback_scores max_str_digits (Json.JDict [])
            = Ok (Fallback.Scores Fallback.required_fields 0 [] (PyFloat.float_of_int 0) 0))
  /\ (forall items : list (string * Json.json),
         Json.dict_get "analysis" items = Some (Json.JStr EmptyString) ->
         exists missing completeness overall,
           Fallback.fallback_scores max_str_digits (Json.JDict items)
           = Ok (Fallback.Scores missing completeness [] (PyFloat.float_of_int 0) overall)).
Proof.
  split; [|split; [|split; [|split]]].
  - intros hash symbol timeframe. unfold Server._create_fallback_analysis.
    destruct (hash symbol mod 2 =? 0), (String.eqb symbol "BTC"); eexists; reflexivity.
  - apply FallbackFacts.fallback_validation_ok.
  - intros items H. apply FallbackFacts.fallback_validation_ok. unfold Fallback.analysis_of.
    now destruct H as [-> | [s ->]].
  - eexists. split; reflexivity.
  - intros items E.
    assert (Hlimit : Json.ints_in_limit max_str_digits (Fallback.analysis_of items) = true)
      by (unfold Fallback.analysis_of; now rewrite E).
    pose proof (FallbackFacts.fallback_scores_dict max_str_digits items Hlimit) as H.
    cbv zeta in H. unfold Fallback.analysis_of in H. rewrite E in H.
    do 3 eexists. exact H.
Qed.

Lemma fallback_generators_total_witness :
  (exists report,
      Fallback._create_fallback_validation 4300
        (Json.JDict [("symbol", Json.JStr EmptyString); ("analysis", Json.JInt 12)])
      = Ok report)
  /\ (exists report,
         Fallback._create_fallback_validation 4300
           (Json.JDict [("symbol", Json.JStr EmptyString)]) = Ok report)
  /\ exists missing completeness overall,
       Fallback.fallback_scores 4300
         (Json.JDict [("symbol", Json.JStr EmptyString); ("analysis", Json.JStr EmptyString)])
       = Ok (Fallback.Scores missing completeness [] (PyFloat.float_of_int 0) overall).
Proof.
  split; [|split].
  - apply (proj1 (proj2 (fallback_generators_total 4300))
             [("symbol", Json.JStr EmptyString); ("analysis", Json.JInt 12)]).
    reflexivity.
  - apply (proj1 (proj2 (proj2 (fallback_generators_total 4300)))
             [("symbol", Json.JStr EmptyString)]).
    left. reflexivity.
  - apply (proj2 (proj2 (proj2 (proj2 (fallback_generators_total 4300))))
             [("symbol", Json.JStr EmptyString); ("analysis", Json.JStr EmptyString)]).
    reflexivity.
Defined.

(** ** The canonical encoding *)

Module JsonFacts.
Import PyStr Json.

(** Induction on a value, with the hypothesis for the elements of a list
    and the values of a dict. *)
Lemma json_induction (P : json -> Prop) :
  P JNull -> (forall b, P (JBool b)) -> (forall n, P (JInt n)) -> (forall s, P (JStr s)) ->
  (forall l, Forall P l -> P (JList l)) ->
  (forall items, Forall (fun kv => P (snd kv)) items -> P (JDict items)) ->
  forall v, P v.
Proof.
  intros Hnull Hbool Hint Hstr Hlist Hdict.
  refine (fix IH (v : json) : P v :=
            match v with
            | JNull => Hnull
            | JBool b => Hbool b
            | JInt n => Hint n
            | JStr s => Hstr s
            | JList l =>
                Hlist l ((fix go (l : list json) : Forall P l :=
                            match l with
                            | [] => @List.Forall_nil _ _
                            | x :: l' => @List.Forall_cons _ P x l' (IH x) (go l')
                            end) l)
            | JDict items =>
                Hdict items
                  ((fix go (l : list (string * json)) : Forall (fun kv => P (snd kv)) l :=
                      match l with
                      | [] => @List.Forall_nil _ _
                      | (k, x) :: l' =>
                          @List.Forall_cons _ (fun kv => P (snd kv)) (k, x) l' (IH x) (go l')
                      end) items)
            end).
Qed.

Lemma leb_false_flip (a b : string) : String.leb a b = false -> String.leb b a = true.
Proof. destruct (String.leb_total a b) as [H|H]; congruence. Qed.

Lemma leb_trans (a b c : string) :
  String.leb a b = true -> String.leb b c = true -> String.leb a c = true.
Proof.
  intros H1 H2. apply Is_true_true. apply Is_true_true in H1, H2.
  exact (@transitivity _ String.le _ a b c H1 H2).
Qed.

(** Inserting two items with different keys, in either order. *)
Lemma insert_item_comm {V : Type} (x y : string * V) (l : list (string * V)) :
  fst x <> fst y -> insert_item x (insert_item y l) = insert_item y (insert_item x l).
Proof.
  intros Hxy.
  assert (Hanti : String.leb (fst x) (fst y) = true -> String.leb (fst y) (fst x) = true -> False).
  { intros H1 H2. apply Hxy. now apply String.leb_antisym. }
  induction l as [|z l IH]; simpl.
  - destruct (String.leb (fst x) (fst y)) eqn:E1, (String.leb (fst y) (fst x)) eqn:E2;
      try reflexivity; exfalso; auto.
    apply leb_false_flip in E1. congruence.
  - destruct (String.leb (fst y) (fst z)) eqn:Eyz, (String.leb (fst x) (fst z)) eqn:Exz; simpl;
      rewrite ?Eyz, ?Exz.
    + destruct (String.leb (fst x) (fst y)) eqn:E1, (String.leb (fst y) (fst x)) eqn:E2;
        simpl; rewrite ?Eyz, ?Exz; try reflexivity; exfalso; auto.
      apply leb_false_flip in E1. congruence.
    + destruct (String.leb (fst x) (fst y)) eqn:E1; [|reflexivity].
      pose proof (leb_trans _ _ _ E1 Eyz). congruence.
    + destruct (String.leb (fst y) (fst x)) eqn:E2; [|reflexivity].
      pose proof (leb_trans _ _ _ E2 Exz). congruence.
    + now rewrite IH.
Qed.

Lemma distinct_NoDup (keys : list string) : distinct keys = true -> NoDup keys.
Proof.
  induction keys as [|k keys IH]; simpl; [constructor|].
  intros [Hk Hd]%andb_true_iff. constructor; [|auto].
  intros Hin. apply negb_true_iff in Hk.
  assert (existsb (String.eqb k) keys = true); [|congruence].
  apply existsb_exists. exists k. split; [now apply list_elem_of_In|apply String.eqb_refl].
Qed.

(** Sorting does not depend on the order of items with distinct keys. *)
Lemma sort_items_perm {V : Type} (l1 l2 : list (string * V)) :
  Permutation l1 l2 -> NoDup (map fst l1) -> sort_items l1 = sort_items l2.
Proof.
  induction 1 as [|x l1 l2 _ IH|x y l|l1 l2 l3 H12 IH12 H23 IH23]; intros Hnd.
  - reflexivity.
  - simpl. inversion Hnd; subst. now rewrite IH.
  - simpl. apply insert_item_comm.
    simpl in Hnd. inversion Hnd as [|? ? Hy _]; subst.
    intros E. apply Hy. rewrite E. apply list_elem_of_here.
  - rewrite IH12 by assumption. apply IH23.
    now rewrite <- (Permutation_map fst H12).
Qed.

(** The keys come out of the sort in increasing order. *)
Lemma insert_item_sorted {V : Type} (x : string * V) (l : list (string * V)) :
  Sorted (fun a b => String.leb (fst a) (fst b) = true) l ->
  Sorted (fun a b => String.leb (fst a) (fst b) = true) (insert_item x l).
Proof.
  induction 1 as [|z l Hs IH Hhd]; simpl.
  - repeat constructor.
  - destruct (String.leb (fst x) (fst z)) eqn:E.
    + repeat constructor; assumption.
    + constructor; [exact IH|].
      apply leb_false_flip in E.
      destruct Hhd as [|w l Hw]; simpl; [now constructor|].
      destruct (String.leb (fst x) (fst w)); now constructor.
Qed.

Lemma sort_items_sorted {V : Type} (l : list (string * V)) :
  Sorted (fun a b => String.leb (fst a) (fst b) = true) (sort_items l).
Proof.
  induction l as [|x l IH]; simpl; [constructor|]. now apply insert_item_sorted.
Qed.

Lemma dumps_sorted_list (l : list json) :
  dumps_sorted (JList l)
  = match l with
    | [] => "[]"
    | _ => "[" ++ join ", " (map dumps_sorted l) ++ "]"
    end%string.
Proof. reflexivity. Qed.

Lemma dumps_sorted_dict (items : list (string * json)) :
  dumps_sorted (JDict items)
  = match items with
    | [] => "{}"
    | _ => "{" ++ join ", " (map (encode_item ": ")
                               (sort_items (map (fun '(k, v) => (k, dumps_sorted v)) items)))
               ++ "}"
    end%string.
Proof. reflexivity. Qed.

(** Values with the same content have the same canonical encoding. *)
Lemma dumps_sorted_same_content (a : json) :
  well_formed a = true -> forall b, same_content a b -> dumps_sorted a = dumps_sorted b.
Proof.
  induction a as [|b0|n|s|l IH|items IH] using json_induction; intros Hwf q Hab;
    inversion Hab as [| | | |? l2 Hl|? reordered items2 Hperm Hitems]; subst;
    try reflexivity.
  - rewrite !dumps_sorted_list.
    assert (E : map dumps_sorted l = map dumps_sorted l2).
    { simpl in Hwf. clear Hab. induction Hl as [|x y l l2 Hxy Hl IHl]; [reflexivity|].
      simpl in Hwf. apply andb_true_iff in Hwf as [Hx Hwf].
      inversion IH as [|? ? IHx IH']; subst. simpl.
      now rewrite (IHx Hx y Hxy), (IHl IH' Hwf). }
    destruct Hl; [reflexivity|]. now rewrite E.
  - rewrite !dumps_sorted_dict.
    simpl in Hwf. apply andb_true_iff in Hwf as [Hkeys Hwf].
    assert (Hall : Forall (fun kv => well_formed (snd kv) = true
                                     /\ (well_formed (snd kv) = true ->
                                         forall b, same_content (snd kv) b ->
                                                   dumps_sorted (snd kv) = dumps_sorted b))
                          reordered).
    { rewrite <- Hperm. clear - IH Hwf.
      induction IH as [|[k v] items Hv _ IHi]; [constructor|].
      simpl in Hwf. apply andb_true_iff in Hwf as [Hw Hwf].
      constructor; [split; assumption|now apply IHi]. }
    assert (E : map (fun '(k, v) => (k, dumps_sorted v)) reordered
                = map (fun '(k, v) => (k, dumps_sorted v)) items2).
    { clear - Hitems Hall.
      induction Hitems as [|[k v] [k2 v2] l l2 [Hk Hv] _ IHl]; [reflexivity|].
      inversion Hall as [|? ? [Hw Hx] Hall']; subst. simpl in *. subst k2.
      now rewrite (Hx Hw v2 Hv), (IHl Hall'). }
    assert (S : sort_items (map (fun '(k, v) => (k, dumps_sorted v)) items)
                = sort_items (map (fun '(k, v) => (k, dumps_sorted v)) items2)).
    { rewrite <- E. apply sort_items_perm; [now apply Permutation_map|].
      rewrite map_map.
      erewrite map_ext; [apply distinct_NoDup; exact Hkeys|]. now intros [k v]. }
    destruct items as [|kv items].
    + apply Permutation_nil in Hperm as ->. now inversion Hitems.
    + destruct items2 as [|kv2 items2]; [|now rewrite S].
      inversion Hitems; subst. now apply Permutation_sym, Permutation_nil in Hperm.
Qed.

Lemma digest_length (msg : list Byte.byte) : length (Sha256.digest msg) = 32%nat.
Proof. reflexivity. Qed.

Lemma forallb_perm {A : Type} (f : A -> bool) (l1 l2 : list A) :
  Permutation l1 l2 -> forallb f l1 = forallb f l2.
Proof.
  induction 1 as [|x l l' _ IH|x y l|l l' l'' _ IH1 _ IH2]; simpl.
  - reflexivity.
  - now rewrite IH.
  - now destruct (f x), (f y).
  - congruence.
Qed.

(** Values of the same content have the same ints. *)
Lemma ints_in_limit_same_content (max_str_digits : nat) (a : json) :
  forall b, same_content a b ->
            ints_in_limit max_str_digits a = ints_in_limit max_str_digits b.
Proof.
  induction a as [|b0|n|s|l IH|items IH] using json_induction; intros q Hab;
    inversion Hab as [| | | |? l2 Hl|? reordered items2 Hperm Hitems]; subst;
    try reflexivity.
  - cbn [ints_in_limit]. clear Hab.
    induction Hl as [|x y l l2 Hxy Hl IHl]; [reflexivity|].
    inversion IH as [|? ? IHx IH']; subst. simpl.
    now rewrite (IHx y Hxy), (IHl IH').
  - cbn [ints_in_limit]. rewrite (forallb_perm _ _ _ Hperm).
    assert (Hall : Forall (fun kv => forall b, same_content (snd kv) b ->
                                       ints_in_limit max_str_digits (snd kv)
                                       = ints_in_limit max_str_digits b) reordered)
      by now rewrite <- Hperm.
    clear - Hitems Hall.
    induction Hitems as [|[k v] [k2 v2] l l2 [Hk Hv] _ IHl]; [reflexivity|].
    inversion Hall as [|? ? Hx Hall']; subst. simpl in *.
    now rewrite (Hx v2 Hv), (IHl Hall').
Qed.

End JsonFacts.

(** C2: two packages that have the same content, whatever the insertion
    order of their dicts, have the same content hash (and when the encoder
    raises for one, on an int beyond the interpreter's digit limit, it
    raises for the other); the hash is the SHA-256 digest, 32 bytes long,
    of the JSON encoding of the package with the keys of every dict in
    increasing order. *)
Theorem content_hash_deterministic (max_str_digits : nat) (p q : Json.json) :
  Json.well_formed p = true -> Json.same_content p q ->
  Server.content_hash max_str_digits p = Server.content_hash max_str_digits q
  /\ Json.dumps_sorted p = Json.dumps_sorted q
  /\ (forall data_hash,
         Server.content_hash max_str_digits p = Ok data_hash ->
         data_hash = Sha256.digest (Sha256.utf8 (Json.dumps_sorted p))
         /\ length data_hash = 32%nat)
  /\ (Json.ints_in_limit max_str_digits p = true ->
      Server.content_hash max_str_digits p
      = Ok (Sha256.digest (Sha256.utf8 (Json.dumps_sorted p))))
  /\ (forall items : list (string * string),
         Sorted (fun a b => String.leb (fst a) (fst b) = true) (Json.sort_items items)).
Proof.
  intros Hwf Hpq. pose proof (JsonFacts.dumps_sorted_same_content p Hwf q Hpq) as E.
  pose proof (JsonFacts.ints_in_limit_same_content max_str_digits p q Hpq) as L.
  unfold Server.content_hash, Json.dumps, Json.checked. rewrite <- L, <- E.
  split; [reflexivity|]. split; [reflexivity|]. split; [|split].
  - intros data_hash. destruct (Json.ints_in_limit max_str_digits p); [|discriminate].
    cbn [bind]. intros [= <-]. split; [reflexivity|apply JsonFacts.digest_length].
  - now intros ->.
  - intros items. apply JsonFacts.sort_items_sorted.
Qed.

Lemma content_hash_deterministic_witness :
  Server.content_hash 4300
    (Json.JDict [("symbol", Json.JStr "BTC");
                 ("metadata", Json.JDict [("a", Json.JInt 1); ("b", Json.JInt 2)])])
  = Server.content_hash 4300
      (Json.JDict [("metadata", Json.JDict [("b", Json.JInt 2); ("a", Json.JInt 1)]);
                   ("symbol", Json.JStr "BTC")])
  /\ Server.content_hash 4300
       (Json.JDict [("symbol", Json.JStr "BTC");
                    ("metadata", Json.JDict [("a", Json.JInt 1); ("b", Json.JInt 2)])])
     = Ok (Sha256.digest (Sha256.utf8
             (Json.dumps_sorted
                (Json.JDict [("symbol", Json.JStr "BTC");
                             ("metadata",
                              Json.JDict [("a", Json.JInt 1); ("b", Json.JInt 2)])])))).
Proof.
  assert (S : Json.same_content
                (Json.JDict [("symbol", Json.JStr "BTC");
                             ("metadata", Json.JDict [("a", Json.JInt 1); ("b", Json.JInt 2)])])
                (Json.JDict [("metadata", Json.JDict [("b", Json.JInt 2); ("a", Json.JInt 1)]);
                             ("symbol", Json.JStr "BTC")])).
  { apply (Json.same_dict _
             [("metadata", Json.JDict [("a", Json.JInt 1); ("b", Json.JInt 2)]);
              ("symbol", Json.JStr "BTC")]).
    - apply perm_swap.
    - repeat constructor.
      apply (Json.same_dict _ [("b", Json.JInt 2); ("a", Json.JInt 1)]).
      + apply perm_swap.
      + repeat constructor. }
  apply (content_hash_deterministic 4300) in S as (H1 & _ & _ & H4 & _); [|reflexivity].
  split; [exact H1|]. apply H4. reflexivity.
Defined.

(** ** The store *)

Module StoreFacts.
Import PyStr Json.

Lemma hex_length (bs : list Byte.byte) : String.length (Sha256.hex bs) = (2 * length bs)%nat.
Proof.
  induction bs as [|b bs IH]; [reflexivity|].
  change (Sha256.hex (b :: bs)) with (hex2 (ascii_of_byte b) ++ Sha256.hex bs)%string.
  rewrite string_length_app, IH. simpl. lia.
Qed.

Lemma hex2_lower (c : ascii) : all_in Sha256.is_lower_hex (hex2 c) = true.
Proof. destruct c as [[] [] [] [] [] [] [] []]; reflexivity. Qed.

Lemma all_in_app (cls : ascii -> bool) (a b : string) :
  all_in cls (a ++ b) = all_in cls a && all_in cls b.
Proof.
  induction a as [|c a IH]; [reflexivity|].
  rewrite string_app_cons. simpl. now rewrite IH, andb_assoc.
Qed.

Lemma hex_lower (bs : list Byte.byte) : all_in Sha256.is_lower_hex (Sha256.hex bs) = true.
Proof.
  induction bs as [|b bs IH]; [reflexivity|].
  change (Sha256.hex (b :: bs)) with (hex2 (ascii_of_byte b) ++ Sha256.hex bs)%string.
  now rewrite all_in_app, hex2_lower, IH.
Qed.

(** Items that are whole are written one after another, with the
    separator between them. *)
Lemma write_items_whole (buf sep close : string) (items : list (bool * (string * bool))) :
  items <> [] ->
  Forall (fun item => snd (snd item) = true) items ->
  write_items buf sep close items
  = (buf ++ join sep (map (fun item => fst (snd item)) items) ++ close, true).
Proof.
  intros Hne H. revert buf Hne.
  induction H as [|[atomic [text whole]] items Hx _ IH]; intros buf Hne; [congruence|].
  simpl in Hx. subst whole. cbn [write_items].
  destruct items as [|y items].
  - reflexivity.
  - rewrite (IH sep) by discriminate.
    cbn [map fst snd]. change (join sep (text :: ?l)) with (join sep (text :: l)).
    remember (map (fun item => fst (snd item)) items) as texts.
    change (join sep (text :: fst (snd y) :: texts))
      with (text ++ sep ++ join sep (fst (snd y) :: texts))%string.
    now rewrite !string_app_assoc.
Qed.

(** A value with no int beyond the limit is written whole. *)
Lemma dump_written_in_limit (max_str_digits : nat) (v : json) :
  forall level,
    ints_in_limit max_str_digits v = true ->
    dump_written max_str_digits level v = (dumps_indent level v, true).
Proof.
  induction v as [|b|n|s|l IH|items IH] using JsonFacts.json_induction; intros level Hlimit;
    try reflexivity.
  - cbn [ints_in_limit] in Hlimit. cbn [dump_written]. now rewrite Hlimit.
  - cbn [ints_in_limit] in Hlimit.
    assert (E : map (fun y => (is_int y, dump_written max_str_digits (S level) y)) l
                = map (fun y => (is_int y, (dumps_indent (S level) y, true))) l).
    { induction IH as [|y l' Hy _ IHl]; [reflexivity|].
      cbn [forallb] in Hlimit. apply andb_prop in Hlimit as [Hy' Hl].
      cbn [map]. now rewrite (Hy (S level) Hy'), (IHl Hl). }
    destruct l as [|x l]; [reflexivity|].
    change (dump_written max_str_digits level (JList (x :: l)))
      with (write_items ("[" ++ newline_indent (S level)) ("," ++ newline_indent (S level))
              (newline_indent level ++ "]")
              (map (fun y => (is_int y, dump_written max_str_digits (S level) y)) (x :: l))).
    rewrite E, write_items_whole.
    + rewrite map_map. cbn [fst snd]. now rewrite string_app_assoc.
    + discriminate.
    + apply Forall_map. now apply Forall_true.
  - cbn [ints_in_limit] in Hlimit.
    assert (E : map (fun '(k, y) =>
                       let (text, whole) := dump_written max_str_digits (S level) y in
                       (false, (encode_str k ++ ": " ++ text, whole))) items
                = map (fun '(k, y) =>
                         (false, (encode_str k ++ ": " ++ dumps_indent (S level) y, true)))
                      items).
    { induction IH as [|[k y] l Hy _ IHl]; [reflexivity|].
      cbn [forallb] in Hlimit. apply andb_prop in Hlimit as [Hy' Hl].
      cbn [map]. cbn [snd] in Hy. now rewrite (Hy (S level) Hy'), (IHl Hl). }
    destruct items as [|kv items]; [reflexivity|].
    change (dump_written max_str_digits level (JDict (kv :: items)))
      with (write_items ("{" ++ newline_indent (S level)) ("," ++ newline_indent (S level))
              (newline_indent level ++ "}")
              (map (fun '(k, y) =>
                      let (text, whole) := dump_written max_str_digits (S level) y in
                      (false, (encode_str k ++ ": " ++ text, whole))) (kv :: items))).
    rewrite E, write_items_whole.
    + rewrite map_map.
      rewrite (map_ext _ (fun '(k, v) => encode_str k ++ ": " ++ dumps_indent (S level) v)%string)
        by now intros [k y].
      now rewrite string_app_assoc.
    + discriminate.
    + apply Forall_map. apply Forall_true. now intros [k y].
Qed.

(** An int beyond the limit cuts the writing. *)
Lemma write_items_cut (buf sep close : string) (items : list (bool * (string * bool))) :
  forallb (fun item => snd (snd item)) items = false ->
  snd (write_items buf sep close items) = false.
Proof.
  revert buf. induction items as [|[atomic [text whole]] items IH]; intros buf; [discriminate|].
  cbn [forallb snd write_items]. destruct whole; [|reflexivity].
  cbn [andb]. intros H. specialize (IH sep H).
  destruct (write_items sep sep close items) as [rest finished]. exact IH.
Qed.

Lemma dump_written_beyond_limit (max_str_digits : nat) (v : json) :
  forall level,
    ints_in_limit max_str_digits v = false ->
    snd (dump_written max_str_digits level v) = false.
Proof.
  induction v as [|b|n|s|l IH|items IH] using JsonFacts.json_induction; intros level Hlimit;
    try discriminate.
  - cbn [ints_in_limit] in Hlimit. cbn [dump_written]. now rewrite Hlimit.
  - cbn [ints_in_limit] in Hlimit.
    assert (E : forallb (fun item => snd (snd item))
                  (map (fun y => (is_int y, dump_written max_str_digits (S level) y)) l)
                = forallb (ints_in_limit max_str_digits) l).
    { clear Hlimit. induction IH as [|y l' Hy _ IHl]; [reflexivity|].
      cbn [map forallb snd]. rewrite IHl. f_equal.
      destruct (ints_in_limit max_str_digits y) eqn:Ey.
      - now rewrite (dump_written_in_limit _ _ _ Ey).
      - now apply Hy. }
    destruct l as [|x l]; [discriminate|].
    change (dump_written max_str_digits level (JList (x :: l)))
      with (write_items ("[" ++ newline_indent (S level)) ("," ++ newline_indent (S level))
              (newline_indent level ++ "]")
              (map (fun y => (is_int y, dump_written max_str_digits (S level) y)) (x :: l))).
    apply write_items_cut. now rewrite E.
  - cbn [ints_in_limit] in Hlimit.
    assert (E : forallb (fun item => snd (snd item))
                  (map (fun '(k, y) =>
                          let (text, whole) := dump_written max_str_digits (S level) y in
                          (false, (encode_str k ++ ": " ++ text, whole))) items)
                = forallb (fun '(_, x) => ints_in_limit max_str_digits x) items).
    { clear Hlimit. induction IH as [|[k y] l' Hy _ IHl]; [reflexivity|].
      cbn [map forallb]. rewrite IHl. f_equal. cbn [snd] in Hy.
      destruct (ints_in_limit max_str_digits y) eqn:Ey.
      - now rewrite (dump_written_in_limit _ _ _ Ey).
      - specialize (Hy (S level) eq_refl).
        now destruct (dump_written max_str_digits (S level) y). }
    destruct items as [|kv items]; [discriminate|].
    change (dump_written max_str_digits level (JDict (kv :: items)))
      with (write_items ("{" ++ newline_indent (S level)) ("," ++ newline_indent (S level))
              (newline_indent level ++ "}")
              (map (fun '(k, y) =>
                      let (text, whole) := dump_written max_str_digits (S level) y in
                      (false, (encode_str k ++ ": " ++ text, whole))) (kv :: items))).
    apply write_items_cut. now rewrite E.
Qed.

End StoreFacts.

(** ** Decoding what was encoded *)

Module ParseFacts.
Import PyStr Json JsonParse.

Lemma scanstring_escape_char (c : ascii) (tail : string) :
  scanstring (escape_char c ++ tail) = cons_char c (scanstring tail).
Proof. destruct c as [[] [] [] [] [] [] [] []]; reflexivity. Qed.

(** The decoder reads an encoded string back. *)
Lemma scanstring_escape (s rest : string) :
  scanstring (escape s ++ String dquote rest) = Ok (s, rest).
Proof.
  induction s as [|c s IH]; [reflexivity|].
  change (escape (String c s)) with (escape_char c ++ escape s)%string.
  rewrite string_app_assoc, scanstring_escape_char, IH. reflexivity.
Qed.

Lemma skip_ws_spaces (n : nat) (s : string) : skip_ws (spaces n ++ s) = skip_ws s.
Proof. induction n as [|n IH]; [reflexivity|]. exact IH. Qed.

Lemma skip_ws_newline_indent (level : nat) (s : string) :
  skip_ws (newline_indent level ++ s) = skip_ws s.
Proof.
  unfold newline_indent, newline. rewrite string_app_assoc.
  change (skip_ws (spaces (2 * level) ++ s) = skip_ws s). apply skip_ws_spaces.
Qed.

Lemma skip_ws_stop (c : ascii) (s : string) : is_ws c = false -> skip_ws (String c s) = String c s.
Proof. intros H. simpl. now rewrite H. Qed.

(** *** Integers *)

Lemma int_digits_acc (d : Decimal.uint) (acc : positive) :
  int_digits (Z.pos acc) (NilEmpty.string_of_uint d) = Z.pos (Pos.of_uint_acc d acc).
Proof.
  revert acc. induction d as [|d IH|d IH|d IH|d IH|d IH|d IH|d IH|d IH|d IH|d IH];
    intros acc; [reflexivity|..]; cbn [NilEmpty.string_of_uint int_digits Pos.of_uint_acc];
    rewrite <- IH; f_equal; cbn; lia.
Qed.

Lemma int_digits_uint (d : Decimal.uint) :
  int_digits 0 (NilEmpty.string_of_uint d) = Z.of_N (Pos.of_uint d).
Proof.
  induction d as [|d IH|d IH|d IH|d IH|d IH|d IH|d IH|d IH|d IH|d IH];
    [reflexivity|exact IH|..];
    cbn [NilEmpty.string_of_uint int_digits Pos.of_uint Z.of_N];
    rewrite <- int_digits_acc; reflexivity.
Qed.

Lemma all_digits_uint (d : Decimal.uint) : all_digits (NilEmpty.string_of_uint d) = true.
Proof. induction d; simpl; auto. Qed.

(** The digits of a positive number do not start with 0. *)
Lemma to_uint_no_leading_zero (p : positive) (d : Decimal.uint) :
  Pos.to_uint p <> Decimal.D0 d.
Proof.
  intros E.
  assert (N : Pos.to_uint p = Decimal.unorm (Pos.to_uint p)).
  { rewrite <- (DecimalPos.Unsigned.to_of (Pos.to_uint p)).
    now rewrite DecimalPos.Unsigned.of_to. }
  rewrite E, DecimalFacts.unorm_D0 in N. unfold Decimal.unorm in N.
  destruct (Decimal.nzhead d) eqn:H; try discriminate N.
  - injection N as ->. exact (DecimalPos.Unsigned.to_uint_nonzero p E).
  - exact (DecimalFacts.nzhead_nonzero _ _ H).
Qed.

(** The text of a positive number: digits, the first of them not 0. *)
Lemma str_of_pos (p : positive) :
  exists c ds,
    str_of_int (Z.pos p) = String c ds
    /\ is_digit c = true /\ Ascii.eqb c "0" = false
    /\ all_digits (String c ds) = true
    /\ int_digits 0 (String c ds) = Z.pos p.
Proof.
  unfold str_of_int. cbn [Z.to_int NilZero.string_of_int].
  pose proof (to_uint_no_leading_zero p) as Hz.
  pose proof (DecimalPos.Unsigned.to_uint_nonnil p) as Hn.
  pose proof (all_digits_uint (Pos.to_uint p)) as Hd.
  pose proof (int_digits_uint (Pos.to_uint p)) as Hv.
  rewrite DecimalPos.Unsigned.of_to in Hv.
  destruct (Pos.to_uint p) as [|d|d|d|d|d|d|d|d|d|d] eqn:E; [congruence|now destruct (Hz d)|..];
    eexists _, _; (split; [reflexivity|]); repeat split; try reflexivity; assumption.
Qed.

Lemma span_digits_app (ds rest : string) :
  all_digits ds = true -> starts_in is_digit rest = false ->
  span_digits (ds ++ rest) = (ds, rest).
Proof.
  intros Hd Hr. induction ds as [|c ds IH].
  - rewrite string_app_nil_l. destruct rest as [|c rest]; [reflexivity|].
    simpl in *. now rewrite Hr.
  - simpl in Hd. apply andb_true_iff in Hd as [Hc Hd].
    rewrite string_app_cons. simpl. now rewrite Hc, (IH Hd).
Qed.

Lemma ends_value_no_digit (rest : string) :
  ends_value rest = true -> starts_in is_digit rest = false /\ float_follows rest = false.
Proof.
  destruct rest as [|c rest]; [now split|].
  destruct c as [[] [] [] [] [] [] [] []]; try discriminate; now split.
Qed.

Lemma parse_int_zero (max_str_digits : nat) (rest : string) :
  ends_value rest = true ->
  parse_int max_str_digits false (String "0" rest) = Ok (JInt 0, rest).
Proof.
  intros [_ Hf]%ends_value_no_digit. unfold parse_int. cbn [is_digit code].
  cbn. rewrite Hf. reflexivity.
Qed.

Lemma parse_int_pos (max_str_digits : nat) (neg : bool) (p : positive) (rest : string) :
  int_in_limit max_str_digits (Z.pos p) = true -> ends_value rest = true ->
  parse_int max_str_digits neg (str_of_int (Z.pos p) ++ rest)
  = Ok (JInt (if neg then Z.neg p else Z.pos p), rest).
Proof.
  intros Hlim [Hd Hf]%ends_value_no_digit. unfold int_in_limit in Hlim.
  change (Z.abs (Z.pos p)) with (Z.pos p) in Hlim. cbv zeta in Hlim.
  destruct (str_of_pos p) as (c & ds & E & Hc & Hz & Hall & Hv).
  rewrite E in *. rewrite string_app_cons. unfold parse_int. rewrite Hc, Hz.
  rewrite <- string_app_cons, (span_digits_app _ _ Hall Hd). cbn [fst snd].
  rewrite Hf. unfold py_int. rewrite Hall.
  apply negb_true_iff in Hlim. rewrite Hlim. cbn [bind]. rewrite Hv.
  now destruct neg.
Qed.

Lemma parse_value_digit (max_str_digits fuel : nat) (c : ascii) (s : string) :
  is_digit c = true ->
  parse_value max_str_digits (S fuel) (String c s) = parse_int max_str_digits false (String c s).
Proof. destruct c as [[] [] [] [] [] [] [] []]; try discriminate; reflexivity. Qed.

Lemma parse_value_int (max_str_digits fuel : nat) (n : Z) (rest : string) :
  int_in_limit max_str_digits n = true -> ends_value rest = true ->
  parse_value max_str_digits (S fuel) (str_of_int n ++ rest) = Ok (JInt n, rest).
Proof.
  intros Hlim Hrest. destruct n as [|p|p].
  - change (str_of_int 0 ++ rest)%string with (String "0" rest).
    rewrite parse_value_digit by reflexivity. now apply parse_int_zero.
  - destruct (str_of_pos p) as (c & ds & E & Hc & _).
    pose proof (parse_int_pos max_str_digits false p rest Hlim Hrest) as H.
    rewrite E, string_app_cons in *. now rewrite parse_value_digit.
  - change (str_of_int (Z.neg p) ++ rest)%string
      with (String "-" (str_of_int (Z.pos p) ++ rest)).
    change (parse_int max_str_digits true (str_of_int (Z.pos p) ++ rest)
            = Ok (JInt (Z.neg p), rest)).
    now apply parse_int_pos.
Qed.

(** *** The first character of an encoded value *)

Lemma dumps_indent_first (level : nat) (v : json) :
  exists c s, dumps_indent level v = String c s
              /\ is_ws c = false /\ Ascii.eqb c "]" = false.
Proof.
  destruct v as [|[]|[|p|p]|s|[|x l]|[|kv items]];
    try (eexists _, _; split; [reflexivity|split; reflexivity]).
  destruct (str_of_pos p) as (c & ds & E & Hc & _).
  exists c, ds. split; [exact E|].
  destruct c as [[] [] [] [] [] [] [] []]; try discriminate; split; reflexivity.
Qed.

Lemma skip_ws_dumps (level : nat) (v : json) (rest : string) :
  skip_ws (dumps_indent level v ++ rest) = (dumps_indent level v ++ rest)%string.
Proof.
  destruct (dumps_indent_first level v) as (c & s & -> & Hc & _).
  rewrite string_app_cons. now apply skip_ws_stop.
Qed.

(** *** Lists *)

Lemma parse_elems_eq (max_str_digits fuel : nat) (acc : list json) (s : string) :
  parse_elems max_str_digits (S fuel) acc s
  = (let* v := parse_value max_str_digits fuel s in
     match skip_ws (snd v) with
     | String d s2 =>
         if Ascii.eqb d "]" then Ok (JList (rev (fst v :: acc)), s2)
         else if Ascii.eqb d ","
              then parse_elems max_str_digits fuel (fst v :: acc) (skip_ws s2)
              else Raise JSONDecodeError
     | EmptyString => Raise JSONDecodeError
     end).
Proof. reflexivity. Qed.

Lemma join_cons_cons (sep a b : string) (l : list string) :
  join sep (a :: b :: l) = (a ++ sep ++ join sep (b :: l))%string.
Proof. reflexivity. Qed.

Lemma ends_value_newline_indent (level : nat) (s : string) :
  ends_value (newline_indent level ++ s) = true.
Proof. reflexivity. Qed.

Lemma skip_ws_join_dumps (sep : string) (level : nat) (x : json) (l : list json) (tail : string) :
  skip_ws (join sep (map (dumps_indent level) (x :: l)) ++ tail)
  = (join sep (map (dumps_indent level) (x :: l)) ++ tail)%string.
Proof.
  destruct l as [|y l]; cbn [map].
  - apply skip_ws_dumps.
  - rewrite join_cons_cons, string_app_assoc. apply skip_ws_dumps.
Qed.

(** The elements of an encoded list, up to the closing bracket. *)
Lemma parse_elems_join (max_str_digits : nat) (l : list json) :
  l <> [] -> Forall (decodes max_str_digits) l ->
  forallb well_formed l = true -> forallb (ints_in_limit max_str_digits) l = true ->
  forall (level : nat) (acc : list json) (rest : string) (fuel : nat),
    (length l + max_of (map calls l) <= fuel)%nat ->
    parse_elems max_str_digits fuel acc
      (join ("," ++ newline_indent (S level)) (map (dumps_indent (S level)) l)
         ++ newline_indent level ++ String "]" rest)
    = Ok (JList (rev acc ++ l), rest).
Proof.
  induction l as [|x l IH]; [congruence|].
  intros _ HF Hwf Hint level acc rest fuel Hfuel.
  inversion HF as [|? ? Hx HF']; subst.
  cbn [forallb] in Hwf, Hint.
  apply andb_true_iff in Hwf as [Hwx Hwl]. apply andb_true_iff in Hint as [Hix Hil].
  cbn [length map max_of fold_right] in Hfuel. fold (max_of (map calls l)) in Hfuel.
  destruct fuel as [|fuel]; [lia|]. rewrite parse_elems_eq.
  destruct l as [|y l].
  - cbn [map join].
    rewrite (Hx (S level) _ fuel Hwx Hix (ends_value_newline_indent _ _)) by (simpl in Hfuel; lia).
    cbn [bind fst snd]. rewrite skip_ws_newline_indent.
    rewrite (skip_ws_stop "]" _ eq_refl). reflexivity.
  - cbn [map]. rewrite join_cons_cons, !string_app_assoc.
    change ("," ++ newline_indent (S level) ++ ?t)%string
      with (String "," (newline_indent (S level) ++ t)).
    rewrite (Hx (S level) (String "," _) fuel Hwx Hix eq_refl) by lia.
    cbn [bind fst snd]. rewrite (skip_ws_stop "," _ eq_refl).
    change (Ascii.eqb "," "]") with false. change (Ascii.eqb "," ",") with true.
    cbv iota. rewrite skip_ws_newline_indent.
    change (dumps_indent (S level) y :: map (dumps_indent (S level)) l)
      with (map (dumps_indent (S level)) (y :: l)).
    rewrite skip_ws_join_dumps.
    rewrite (IH ltac:(discriminate) HF' Hwl Hil level (x :: acc) rest fuel) by lia.
    cbn [rev]. now rewrite <- app_assoc.
Qed.

(** *** Dicts *)

Lemma parse_members_eq (max_str_digits fuel : nat) (acc : list (string * json)) (s : string) :
  parse_members max_str_digits (S fuel) acc s
  = (let* k := scanstring s in
     match skip_ws (snd k) with
     | String c s1 =>
         if Ascii.eqb c ":" then
           let* v := parse_value max_str_digits fuel (skip_ws s1) in
           let acc' := dict_set (fst k) (fst v) acc in
           match skip_ws (snd v) with
           | String d s2 =>
               if Ascii.eqb d "}" then Ok (JDict acc', s2)
               else if Ascii.eqb d "," then
                 match skip_ws s2 with
                 | String q s3 =>
                     if Ascii.eqb q dquote
                     then parse_members max_str_digits fuel acc' s3
                     else Raise JSONDecodeError
                 | EmptyString => Raise JSONDecodeError
                 end
               else Raise JSONDecodeError
           | EmptyString => Raise JSONDecodeError
           end
         else Raise JSONDecodeError
     | EmptyString => Raise JSONDecodeError
     end).
Proof. reflexivity. Qed.

(** Setting a key that is not there adds the item at the end. *)
Lemma dict_set_fresh (k : string) (v : json) (acc : list (string * json)) :
  k ∉ map fst acc -> dict_set k v acc = (acc ++ [(k, v)])%list.
Proof.
  induction acc as [|[k' v'] acc IH]; intros Hk; [reflexivity|].
  cbn [dict_set]. cbn [map fst] in Hk. apply not_elem_of_cons in Hk as [Hne Hk].
  destruct (String.eqb_spec k k') as [->|_]; [congruence|].
  cbn [app]. now rewrite IH.
Qed.

(** The text of the items of a dict starts with the quote of the first key. *)
Lemma join_items_members (level : nat) (items : list (string * json)) (rest : string) :
  items <> [] ->
  (join ("," ++ newline_indent (S level))
        (map (fun '(k, v) => encode_str k ++ ": " ++ dumps_indent (S level) v) items)
     ++ newline_indent level ++ String "}" rest)%string
  = String dquote (members_tail level items rest).
Proof.
  induction items as [|[k v] items IH]; [congruence|]. intros _.
  destruct items as [|kv items].
  - cbn [map join members_tail]. unfold encode_str.
    repeat (rewrite string_app_cons || rewrite string_app_assoc || rewrite string_app_nil_l).
    reflexivity.
  - specialize (IH ltac:(discriminate)).
    change (members_tail level ((k, v) :: kv :: items) rest)
      with (escape k ++ String dquote (": " ++ dumps_indent (S level) v
              ++ String "," (newline_indent (S level)
                               ++ String dquote (members_tail level (kv :: items) rest))))%string.
    rewrite <- IH. cbn [map]. rewrite join_cons_cons.
    unfold encode_str at 1.
    repeat (rewrite string_app_cons || rewrite string_app_assoc || rewrite string_app_nil_l).
    reflexivity.
Qed.

Lemma parse_members_tail (max_str_digits : nat) (items : list (string * json)) :
  items <> [] -> Forall (fun kv => decodes max_str_digits (snd kv)) items ->
  forallb (fun '(_, x) => well_formed x) items = true ->
  forallb (fun '(_, x) => ints_in_limit max_str_digits x) items = true ->
  forall (level : nat) (acc : list (string * json)) (rest : string) (fuel : nat),
    NoDup (map fst (acc ++ items)) ->
    (length items + max_of (map (fun '(_, x) => calls x) items) <= fuel)%nat ->
    parse_members max_str_digits fuel acc (members_tail level items rest)
    = Ok (JDict (acc ++ items), rest).
Proof.
  induction items as [|[k v] items IH]; [congruence|].
  intros _ HF Hwf Hint level acc rest fuel Hnd Hfuel.
  inversion HF as [|? ? Hv HF']; subst. cbn [snd] in Hv.
  cbn [forallb] in Hwf, Hint.
  apply andb_true_iff in Hwf as [Hwv Hwl]. apply andb_true_iff in Hint as [Hiv Hil].
  cbn [length map max_of fold_right] in Hfuel.
  fold (max_of (map (fun '(_, x) => calls x) items)) in Hfuel.
  destruct fuel as [|fuel]; [lia|]. rewrite parse_members_eq.
  cbn [members_tail]. rewrite scanstring_escape. cbn [bind fst snd].
  change (": " ++ ?t)%string with (String ":" (String " " t)).
  rewrite (skip_ws_stop ":" _ eq_refl). change (Ascii.eqb ":" ":") with true. cbv iota.
  change (skip_ws (String " " ?t)) with (skip_ws t). rewrite skip_ws_dumps.
  assert (Hk : dict_set k v acc = (acc ++ [(k, v)])%list).
  { apply dict_set_fresh. rewrite map_app in Hnd. apply NoDup_app in Hnd as (_ & Hd & _).
    intros Hin. apply (Hd k Hin). cbn [map fst]. apply list_elem_of_here. }
  destruct items as [|kv items].
  - rewrite (Hv (S level) _ fuel Hwv Hiv (ends_value_newline_indent _ _)) by (simpl in Hfuel; lia).
    cbn [bind fst snd]. rewrite skip_ws_newline_indent.
    rewrite (skip_ws_stop "}" _ eq_refl). change (Ascii.eqb "}" "}") with true. cbv iota.
    now rewrite Hk.
  - rewrite (Hv (S level) (String "," _) fuel Hwv Hiv eq_refl) by lia.
    cbn [bind fst snd]. rewrite (skip_ws_stop "," _ eq_refl).
    change (Ascii.eqb "," "}") with false. change (Ascii.eqb "," ",") with true. cbv iota.
    rewrite skip_ws_newline_indent. rewrite (skip_ws_stop dquote _ eq_refl).
    rewrite Ascii.eqb_refl. rewrite Hk.
    rewrite (IH ltac:(discriminate) HF' Hwl Hil level (acc ++ [(k, v)])%list rest fuel).
    + now rewrite <- app_assoc.
    + now rewrite <- app_assoc.
    + lia.
Qed.

(** *** Values *)

Lemma dumps_indent_list (level : nat) (x : json) (l : list json) :
  dumps_indent level (JList (x :: l))
  = ("[" ++ newline_indent (S level)
         ++ join ("," ++ newline_indent (S level)) (map (dumps_indent (S level)) (x :: l))
         ++ newline_indent level ++ "]")%string.
Proof. reflexivity. Qed.

Lemma dumps_indent_dict (level : nat) (kv : string * json) (items : list (string * json)) :
  dumps_indent level (JDict (kv :: items))
  = ("{" ++ newline_indent (S level)
         ++ join ("," ++ newline_indent (S level))
              (map (fun '(k, v) => encode_str k ++ ": " ++ dumps_indent (S level) v)
                   (kv :: items))
         ++ newline_indent level ++ "}")%string.
Proof. reflexivity. Qed.

Lemma parse_value_list (max_str_digits fuel : nat) (s : string) :
  parse_value max_str_digits (S fuel) (String "[" s)
  = match skip_ws s with
    | String d s2 =>
        if Ascii.eqb d "]" then Ok (JList [], s2)
        else parse_elems max_str_digits fuel [] (String d s2)
    | EmptyString => Raise JSONDecodeError
    end.
Proof. reflexivity. Qed.

Lemma parse_value_dict (max_str_digits fuel : nat) (s : string) :
  parse_value max_str_digits (S fuel) (String "{" s)
  = match skip_ws s with
    | String d s2 =>
        if Ascii.eqb d "}" then Ok (JDict [], s2)
        else if Ascii.eqb d dquote then parse_members max_str_digits fuel [] s2
        else Raise JSONDecodeError
    | EmptyString => Raise JSONDecodeError
    end.
Proof. reflexivity. Qed.

Lemma join_dumps_first (sep : string) (level : nat) (x : json) (l : list json) (tail : string) :
  exists c s, (join sep (map (dumps_indent level) (x :: l)) ++ tail)%string = String c s
              /\ Ascii.eqb c "]" = false.
Proof.
  destruct (dumps_indent_first level x) as (c & s & E & _ & Hc).
  destruct l as [|y l]; cbn [map].
  - cbn [join]. rewrite E, string_app_cons. eauto.
  - rewrite join_cons_cons, E, !string_app_cons. eauto.
Qed.

(** Every encoded value is decoded. *)
Lemma decodes_all (max_str_digits : nat) (v : json) : decodes max_str_digits v.
Proof.
  induction v as [|b|n|s|l IH|items IH] using JsonFacts.json_induction;
    intros level rest fuel Hwf Hint Hrest Hfuel;
    (destruct fuel as [|fuel]; [cbn [calls] in Hfuel; lia|]).
  - now destruct rest.
  - now destruct b, rest.
  - now apply parse_value_int.
  - change (dumps_indent level (JStr s) ++ rest)%string
      with (String dquote (escape s ++ String dquote EmptyString) ++ rest)%string.
    rewrite string_app_cons, string_app_assoc, string_app_cons, string_app_nil_l.
    change (parse_value max_str_digits (S fuel) (String dquote ?t))
      with (let* p := scanstring t in Ok (JStr (fst p), snd p)).
    now rewrite scanstring_escape.
  - destruct l as [|x l]; [reflexivity|].
    rewrite dumps_indent_list.
    repeat (rewrite string_app_cons || rewrite string_app_assoc || rewrite string_app_nil_l).
    change (String "," (newline_indent (S level)))
      with ("," ++ newline_indent (S level))%string.
    rewrite parse_value_list, skip_ws_newline_indent, skip_ws_join_dumps.
    destruct (join_dumps_first ("," ++ newline_indent (S level)) (S level) x l
                (newline_indent level ++ String "]" rest)) as (c & s0 & E & Hc).
    rewrite E, Hc, <- E.
    cbn [calls] in Hfuel. cbn [well_formed ints_in_limit] in Hwf, Hint.
    now apply (parse_elems_join max_str_digits (x :: l) ltac:(discriminate) IH Hwf Hint
                 level [] rest fuel ltac:(lia)).
  - destruct items as [|kv items]; [reflexivity|].
    rewrite dumps_indent_dict.
    repeat (rewrite string_app_cons || rewrite string_app_assoc || rewrite string_app_nil_l).
    change (String "," (newline_indent (S level)))
      with ("," ++ newline_indent (S level))%string.
    rewrite parse_value_dict, skip_ws_newline_indent.
    rewrite (join_items_members level (kv :: items) rest ltac:(discriminate)).
    rewrite (skip_ws_stop dquote _ eq_refl).
    change (Ascii.eqb dquote "}") with false. rewrite Ascii.eqb_refl.
    cbn [calls] in Hfuel. cbn [well_formed ints_in_limit] in Hwf, Hint.
    apply andb_true_iff in Hwf as [Hkeys Hwf].
    now apply (parse_members_tail max_str_digits (kv :: items) ltac:(discriminate) IH Hwf Hint
                 level [] rest fuel (JsonFacts.distinct_NoDup _ Hkeys) ltac:(lia)).
Qed.

(** *** The fuel of [json_loads] *)

Lemma join_calls_bound {A : Type} (sep : string) (f : A -> string) (c : A -> nat)
      (l : list A) :
  (1 <= String.length sep)%nat ->
  Forall (fun x => (c x <= String.length (f x))%nat) l -> l <> [] ->
  (length l + max_of (map c l) <= S (String.length (join sep (map f l))))%nat.
Proof.
  intros Hsep HF. induction HF as [|x l Hx HF IH]; [congruence|]. intros _.
  destruct l as [|y l].
  - cbn [map join max_of fold_right length]. lia.
  - specialize (IH ltac:(discriminate)).
    cbn [map] in *. rewrite join_cons_cons, !string_length_app.
    cbn [max_of fold_right length] in *. lia.
Qed.

Lemma str_of_int_nonempty (n : Z) : (1 <= String.length (str_of_int n))%nat.
Proof.
  destruct n as [|p|p].
  - simpl. lia.
  - destruct (str_of_pos p) as (c & ds & -> & _). simpl. lia.
  - change (str_of_int (Z.neg p)) with (String "-" (str_of_int (Z.pos p))). simpl. lia.
Qed.

Lemma newline_indent_length (level : nat) : (1 <= String.length (newline_indent level))%nat.
Proof. unfold newline_indent, newline. rewrite string_length_app. simpl. lia. Qed.

Lemma calls_le_length (v : json) (level : nat) :
  (calls v <= String.length (dumps_indent level v))%nat.
Proof.
  revert level. induction v as [|b|n|s|l IH|items IH] using JsonFacts.json_induction;
    intros level.
  - simpl. lia.
  - destruct b; simpl; lia.
  - apply str_of_int_nonempty.
  - simpl. lia.
  - destruct l as [|x l]; [simpl; lia|].
    rewrite dumps_indent_list, !string_length_app. cbn [calls].
    pose proof (join_calls_bound ("," ++ newline_indent (S level)) (dumps_indent (S level))
                  calls (x :: l)) as H.
    rewrite string_length_app in H. change (String.length ",") with 1%nat in H.
    specialize (H ltac:(lia)). cbn [String.length].
    assert (HF : Forall (fun x => (calls x <= String.length (dumps_indent (S level) x))%nat)
                        (x :: l)).
    { eapply Forall_impl; [exact IH|]. intros y Hy. apply Hy. }
    specialize (H HF ltac:(discriminate)).
    pose proof (newline_indent_length level). pose proof (newline_indent_length (S level)).
    lia.
  - destruct items as [|kv items]; [simpl; lia|].
    rewrite dumps_indent_dict, !string_length_app. cbn [calls].
    pose proof (join_calls_bound ("," ++ newline_indent (S level))
                  (fun '(k, v) => encode_str k ++ ": " ++ dumps_indent (S level) v)%string
                  (fun '(_, x) => calls x) (kv :: items)) as H.
    rewrite string_length_app in H. change (String.length ",") with 1%nat in H.
    specialize (H ltac:(lia)). cbn [String.length].
    assert (HF : Forall (fun kv : string * json =>
                           let '(_, x) := kv in
                           (calls x <= String.length
                                         (let '(k, v) := kv in
                                          encode_str k ++ ": " ++ dumps_indent (S level) v))%nat)
                        (kv :: items)).
    { eapply Forall_impl; [exact IH|]. intros [k y] Hy. cbn [snd] in Hy.
      rewrite !string_length_app. specialize (Hy (S level)). lia. }
    assert (HF' : Forall (fun kv : string * json =>
                            ((let '(_, x) := kv in calls x)
                             <= String.length
                                  (let '(k, v) := kv in
                                   encode_str k ++ ": " ++ dumps_indent (S level) v))%nat)
                         (kv :: items)).
    { eapply Forall_impl; [exact HF|]. now intros [k y]. }
    specialize (H HF' ltac:(discriminate)).
    pose proof (newline_indent_length level). pose proof (newline_indent_length (S level)).
    lia.
Qed.

(** [json.loads] reads back what [json.dumps(obj, indent=2)] wrote. *)
Lemma json_loads_dumps_indent (max_str_digits : nat) (v : json) :
  well_formed v = true -> ints_in_limit max_str_digits v = true ->
  json_loads max_str_digits (dumps_indent 0 v) = Ok v.
Proof.
  intros Hwf Hint. unfold json_loads.
  rewrite <- (string_app_nil_r (dumps_indent 0 v)) at 2.
  rewrite skip_ws_dumps.
  rewrite (decodes_all max_str_digits v 0%nat EmptyString _ Hwf Hint eq_refl).
  - reflexivity.
  - pose proof (calls_le_length v 0). lia.
Qed.

(** *** The ints of a decoded value *)

Lemma digits_uint (s : string) :
  all_digits s = true -> exists d, s = NilEmpty.string_of_uint d.
Proof.
  induction s as [|c s IH]; [now exists Decimal.Nil|].
  cbn [all_digits]. intros [Hc Hs]%andb_prop. destruct (IH Hs) as [d ->].
  destruct c as [[] [] [] [] [] [] [] []]; try discriminate Hc;
    first [ now exists (Decimal.D0 d) | now exists (Decimal.D1 d) | now exists (Decimal.D2 d)
          | now exists (Decimal.D3 d) | now exists (Decimal.D4 d) | now exists (Decimal.D5 d)
          | now exists (Decimal.D6 d) | now exists (Decimal.D7 d) | now exists (Decimal.D8 d)
          | now exists (Decimal.D9 d) ].
Qed.

Lemma length_string_of_uint (d : Decimal.uint) :
  String.length (NilEmpty.string_of_uint d) = Decimal.nb_digits d.
Proof. induction d; simpl; congruence. Qed.

Lemma str_of_int_of_N (n : N) :
  str_of_int (Z.of_N n) = NilZero.string_of_uint (N.to_uint n).
Proof. now destruct n. Qed.

(** A number has no more digits than a digit string it is read from. *)
Lemma length_str_of_int_digits (s : string) :
  s <> EmptyString -> all_digits s = true ->
  (String.length (str_of_int (int_digits 0 s)) <= String.length s)%nat.
Proof.
  intros Hne [d ->]%digits_uint.
  rewrite int_digits_uint, str_of_int_of_N, DecimalPos.Unsigned.to_of.
  assert (Hd : d <> Decimal.Nil) by (intros ->; now apply Hne).
  pose proof (DecimalFacts.nb_digits_unorm d Hd) as Hle.
  rewrite length_string_of_uint.
  unfold NilZero.string_of_uint.
  destruct (Decimal.unorm d) eqn:E; rewrite ?length_string_of_uint; try exact Hle.
  clear E Hle. destruct d; [congruence|simpl; lia..].
Qed.

Lemma int_digits_nonneg (s : string) (acc : Z) : 0 <= acc -> all_digits s = true ->
  0 <= int_digits acc s.
Proof.
  revert acc. induction s as [|c s IH]; intros acc Hacc; [easy|].
  cbn [all_digits int_digits]. intros [Hc Hs]%andb_prop. apply IH; [|exact Hs].
  unfold is_digit in Hc. apply andb_prop in Hc as [Hlo _]. apply N.leb_le in Hlo. lia.
Qed.

Lemma py_int_in_limit (max_str_digits : nat) (s : string) (n : Z) :
  py_int max_str_digits s = Ok n ->
  int_in_limit max_str_digits n = true /\ int_in_limit max_str_digits (- n) = true.
Proof.
  unfold py_int. destruct s as [|c s]; [discriminate|].
  destruct (all_digits (String c s)) eqn:Hall; [|discriminate].
  destruct (Nat.ltb 640 _ && Nat.ltb 0 max_str_digits && Nat.ltb max_str_digits _) eqn:Hlim;
    [discriminate|].
  intros [= <-].
  pose proof (length_str_of_int_digits (String c s) ltac:(discriminate) Hall) as Hle.
  pose proof (int_digits_nonneg (String c s) 0 ltac:(lia) Hall) as Hpos.
  unfold int_in_limit. rewrite Z.abs_opp, Z.abs_eq by exact Hpos.
  assert (G : (Nat.ltb 640 (String.length (str_of_int (int_digits 0 (String c s))))
               && Nat.ltb 0 max_str_digits
               && Nat.ltb max_str_digits
                    (String.length (str_of_int (int_digits 0 (String c s)))))%bool = false).
  { apply andb_false_iff in Hlim as [Hlim|Hlim]; [apply andb_false_iff in Hlim as [Hlim|Hlim]|].
    - apply Nat.ltb_ge in Hlim.
      replace (Nat.ltb 640 _) with false by (symmetry; apply Nat.ltb_ge; lia). reflexivity.
    - rewrite Hlim. now rewrite andb_false_r.
    - apply Nat.ltb_ge in Hlim.
      replace (Nat.ltb max_str_digits _) with false by (symmetry; apply Nat.ltb_ge; lia).
      now rewrite andb_false_r. }
  cbv zeta. cbn [int_digits] in G. rewrite G. now split.
Qed.

Lemma parse_int_in_limit (max_str_digits : nat) (neg : bool) (s : string) (v : json)
      (rest : string) :
  parse_int max_str_digits neg s = Ok (v, rest) -> ints_in_limit max_str_digits v = true.
Proof.
  unfold parse_int. destruct s as [|c s]; [discriminate|].
  destruct (is_digit c); [|now destruct (neg && _)].
  destruct (float_follows _); [discriminate|].
  destruct (py_int max_str_digits _) as [n|e] eqn:E; [|discriminate].
  cbn [bind]. intros [= <- _]. apply py_int_in_limit in E as [Hn Hneg].
  cbn [ints_in_limit]. now destruct neg.
Qed.

Lemma dict_set_in_limit (max_str_digits : nat) (k : string) (v : json)
      (acc : list (string * json)) :
  ints_in_limit max_str_digits v = true ->
  forallb (fun '(_, x) => ints_in_limit max_str_digits x) acc = true ->
  forallb (fun '(_, x) => ints_in_limit max_str_digits x) (dict_set k v acc) = true.
Proof.
  intros Hv. induction acc as [|[k' v'] acc IH]; cbn [dict_set forallb].
  - intros _. now rewrite Hv.
  - intros [Hv' Hacc]%andb_prop. destruct (String.eqb k k'); cbn [forallb].
    + now rewrite Hv, Hacc.
    + now rewrite Hv', (IH Hacc).
Qed.

Lemma parse_value_eq (max_str_digits fuel : nat) (c : ascii) (s' : string) :
  parse_value max_str_digits (S fuel) (String c s')
  = (if Ascii.eqb c dquote then
       let* p := scanstring s' in Ok (JStr (fst p), snd p)
     else if Ascii.eqb c "{" then
       match skip_ws s' with
       | String d s2 =>
           if Ascii.eqb d "}" then Ok (JDict [], s2)
           else if Ascii.eqb d dquote then parse_members max_str_digits fuel [] s2
           else Raise JSONDecodeError
       | EmptyString => Raise JSONDecodeError
       end
     else if Ascii.eqb c "[" then
       match skip_ws s' with
       | String d s2 =>
           if Ascii.eqb d "]" then Ok (JList [], s2)
           else parse_elems max_str_digits fuel [] (String d s2)
       | EmptyString => Raise JSONDecodeError
       end
     else if String.prefix "null" (String c s') then Ok (JNull, drop 4 (String c s'))
     else if String.prefix "true" (String c s') then Ok (JBool true, drop 4 (String c s'))
     else if String.prefix "false" (String c s') then Ok (JBool false, drop 5 (String c s'))
     else if String.prefix "NaN" (String c s') || String.prefix "Infinity" (String c s')
          then Raise OutOfModel
     else if Ascii.eqb c "-" then parse_int max_str_digits true s'
     else parse_int max_str_digits false (String c s')).
Proof. reflexivity. Qed.

(** The decoder returns no int beyond the limit: it converts each one
    from its digits. *)
Lemma parse_in_limit (max_str_digits fuel : nat) :
  (forall s v rest,
      parse_value max_str_digits fuel s = Ok (v, rest) ->
      ints_in_limit max_str_digits v = true)
  /\ (forall acc s v rest,
         forallb (fun '(_, x) => ints_in_limit max_str_digits x) acc = true ->
         parse_members max_str_digits fuel acc s = Ok (v, rest) ->
         ints_in_limit max_str_digits v = true)
  /\ (forall acc s v rest,
         forallb (ints_in_limit max_str_digits) acc = true ->
         parse_elems max_str_digits fuel acc s = Ok (v, rest) ->
         ints_in_limit max_str_digits v = true).
Proof.
  induction fuel as [|fuel (IHv & IHm & IHe)]; [now repeat split|].
  split; [|split].
  - intros [|c s'] v rest; [discriminate|]. rewrite parse_value_eq.
    repeat match goal with
           | |- (if ?b then _ else _) = _ -> _ => destruct b
           | |- match skip_ws ?t with _ => _ end = _ -> _ => destruct (skip_ws t)
           end;
      try discriminate; try (now intros [= <- _]);
      try (now apply parse_int_in_limit).
    + destruct (scanstring s') as [p|e]; [|discriminate]. now intros [= <- _].
    + now apply IHm.
    + now apply IHe.
  - intros acc s v rest Hacc. rewrite parse_members_eq.
    destruct (scanstring s) as [k|e]; [|discriminate]. cbn [bind].
    destruct (skip_ws (snd k)) as [|c s1]; [discriminate|].
    destruct (Ascii.eqb c ":"); [|discriminate].
    destruct (parse_value max_str_digits fuel (skip_ws s1)) as [[x r]|e] eqn:Ex; [|discriminate].
    cbn [bind fst snd]. apply IHv in Ex.
    pose proof (dict_set_in_limit max_str_digits (fst k) x acc Ex Hacc) as Hset.
    destruct (skip_ws r) as [|d s2]; [discriminate|].
    destruct (Ascii.eqb d "}"); [now intros [= <- _]|].
    destruct (Ascii.eqb d ","); [|discriminate].
    destruct (skip_ws s2) as [|q s3]; [discriminate|].
    destruct (Ascii.eqb q dquote); [|discriminate].
    now apply IHm.
  - intros acc s v rest Hacc. rewrite parse_elems_eq.
    destruct (parse_value max_str_digits fuel s) as [[x r]|e] eqn:Ex; [|discriminate].
    cbn [bind fst snd]. apply IHv in Ex.
    destruct (skip_ws r) as [|d s2]; [discriminate|].
    destruct (Ascii.eqb d "]").
    + intros [= <- _]. cbn [ints_in_limit].
      rewrite <- (JsonFacts.forallb_perm _ _ _ (Permutation_rev (x :: acc))).
      cbn [forallb]. now rewrite Ex, Hacc.
    + destruct (Ascii.eqb d ","); [|discriminate].
      apply IHe. cbn [forallb]. now rewrite Ex, Hacc.
Qed.

Lemma json_loads_in_limit (max_str_digits : nat) (s : string) (v : json) :
  json_loads max_str_digits s = Ok v -> ints_in_limit max_str_digits v = true.
Proof.
  unfold json_loads.
  destruct (parse_value max_str_digits _ _) as [[x r]|e] eqn:E; [|discriminate].
  cbn [bind fst snd]. destruct (skip_ws r); [|discriminate].
  intros [= <-]. exact (proj1 (parse_in_limit max_str_digits _) _ _ _ E).
Qed.

End ParseFacts.
(** C3 (as amended): the store keeps a package in the file
    data/<key>.json, the key being the 64 lower-case hexadecimal digits of
    the 32-byte content hash; the file holds the text
    [json.dumps(package, indent=2)], keys in insertion order, and a read of
    the file gives that text back.  Loading the hash after the package was
    stored returns the package itself; loading a hash with no file reports
    it by returning [None]. *)
Theorem store_round_trip (e : World.env) (analysis_package : Json.json) (w : World.world)
        (data_hash : list Byte.byte) :
  Server.content_hash (World.max_str_digits e) analysis_package = Ok data_hash ->
  let key := Sha256.hex data_hash in
  let put := Server._store_analysis_package (World.max_str_digits e) key analysis_package w in
  let stored := snd put in
  fst put = Ok tt
  /\ World.files stored !! Validator.package_path key
     = Some (Json.dumps_indent 0 analysis_package)
  /\ Validator.package_path key = ("data/" ++ key ++ ".json")%string
  /\ length data_hash = 32%nat
  /\ String.length key = 64%nat
  /\ PyStr.all_in Sha256.is_lower_hex key = true
  /\ (Json.well_formed analysis_package = true ->
      fst (Validator._load_analysis_package e key stored) = Ok (Some analysis_package))
  /\ (forall (other : string) (w' : World.world),
         World.files w' !! Validator.package_path other = None ->
         fst (Validator._load_analysis_package e other w') = Ok None).
Proof.
  intros Hhash key put stored.
  unfold Server.content_hash, Json.dumps, Json.checked in Hhash.
  destruct (Json.ints_in_limit (World.max_str_digits e) analysis_package) eqn:Hint;
    [|discriminate].
  cbn [bind] in Hhash. injection Hhash as Hhash.
  assert (P : put = (Ok tt,
                     World.World (<[Validator.package_path key
                                    := Json.dumps_indent 0 analysis_package]> (World.files w))
                                 (World.trace w ++ [World.EvWrite (Validator.package_path key)]))).
  { unfold put, Server._store_analysis_package, World.write_json.
    now rewrite (StoreFacts.dump_written_in_limit _ _ 0%nat Hint). }
  assert (F : World.files stored !! Validator.package_path key
              = Some (Json.dumps_indent 0 analysis_package)).
  { unfold stored. rewrite P. apply lookup_insert_eq. }
  split; [now rewrite P|]. split; [exact F|]. split; [reflexivity|].
  split; [rewrite <- Hhash; apply JsonFacts.digest_length|].
  split; [unfold key; rewrite StoreFacts.hex_length, <- Hhash; reflexivity|].
  split; [apply StoreFacts.hex_lower|]. split.
  - intros Hwf.
    unfold Validator._load_analysis_package, World.read_file, World.bindM, World.lift,
      World.ret.
    rewrite F, (ParseFacts.json_loads_dumps_indent _ _ Hwf Hint). reflexivity.
  - intros other w' Hnone.
    unfold Validator._load_analysis_package, World.read_file, World.bindM, World.ret.
    now rewrite Hnone.
Qed.

Lemma store_round_trip_witness :
  fst (Validator._load_analysis_package Sample.bob_engine_down Sample.data_hash
         (snd (Server._store_analysis_package 4300 Sample.data_hash Sample.analysis_package
                 (World.World ∅ []))))
  = Ok (Some Sample.analysis_package)
  /\ fst (Validator._load_analysis_package Sample.bob_engine_down "00ff" (World.World ∅ []))
     = Ok None.
Proof.
  pose proof (store_round_trip Sample.bob_engine_down Sample.analysis_package
                (World.World ∅ [])
                (Sha256.digest (Sha256.utf8 (Json.dumps_sorted Sample.analysis_package)))
                eq_refl) as (_ & _ & _ & _ & _ & _ & Hload & Hnone).
  split.
  - apply Hload. reflexivity.
  - apply (Hnone "00ff" (World.World ∅ [])). apply lookup_empty.
Defined.

(** The stored text is not the canonical encoding the hash was computed
    over, and does not hash to the key. *)
Lemma store_round_trip_counterexample :
  World.files (snd (Server._store_analysis_package 4300 Sample.data_hash
                      Sample.analysis_package (World.World ∅ [])))
    !! Server.package_path Sample.data_hash
  = Some (Json.dumps_indent 0 Sample.analysis_package)
  /\ Json.dumps 4300 Sample.analysis_package = Ok (Json.dumps_sorted Sample.analysis_package)
  /\ Json.dumps_indent 0 Sample.analysis_package
     <> Json.dumps_sorted Sample.analysis_package
  /\ Sha256.hex (Sha256.digest (Sha256.utf8 (Json.dumps_indent 0 Sample.analysis_package)))
     <> Sample.data_hash.
Proof.
  split; [apply lookup_insert_eq|]. split; [reflexivity|]. split.
  - intros E. apply (f_equal String.length) in E. vm_compute in E. discriminate.
  - intros E. apply (f_equal (String.get 0)) in E. vm_compute in E. discriminate.
Qed.

(** ** The protocol steps *)

(** C8: the submission step writes the package to the store and then asks
    the registry: the request is made in a world that has the file, and
    the write is the event before the request.  When the registry call
    raises, the exception reaches the caller and the file stays; a second
    submission of the same package writes the same text to the same path.
    A step that cannot encode the package or format the validator's id (an
    int beyond the interpreter's digit limit) raises before it stores or
    requests anything. *)
Theorem submit_stores_before_request (e : World.env) (analysis_package : Json.json)
        (validator_agent_id : Z) (w : World.world) :
  (forall data_hash : list Byte.byte,
      Server.content_hash (World.max_str_digits e) analysis_package = Ok data_hash ->
      Json.int_in_limit (World.max_str_digits e) validator_agent_id = true ->
      let path := Server.package_path (Sha256.hex data_hash) in
      let stored :=
        World.World (<[path := Json.dumps_indent 0 analysis_package]> (World.files w))
                    (World.trace w ++ [World.EvWrite path]) in
      let requested :=
        World.World (World.files stored)
                    (World.trace stored
                       ++ [World.EvRequestValidation validator_agent_id data_hash]) in
      Server.submit_work_for_validation e analysis_package validator_agent_id w
      = (World.request_validation e requested validator_agent_id data_hash, requested)
      /\ World.files requested !! path = Some (Json.dumps_indent 0 analysis_package)
      /\ World.trace requested
         = (World.trace w ++ [World.EvWrite path;
                              World.EvRequestValidation validator_agent_id data_hash])%list
      /\ (forall err,
             World.request_validation e requested validator_agent_id data_hash = Raise err ->
             Server.submit_work_for_validation e analysis_package validator_agent_id w
             = (Raise err, requested))
      /\ World.files
           (snd (Server.submit_work_for_validation e analysis_package validator_agent_id
                   requested))
         = World.files requested)
  /\ (forall err,
         Server.content_hash (World.max_str_digits e) analysis_package = Raise err ->
         Server.submit_work_for_validation e analysis_package validator_agent_id w
         = (Raise err, w))
  /\ (Json.int_in_limit (World.max_str_digits e) validator_agent_id = false ->
      snd (Server.submit_work_for_validation e analysis_package validator_agent_id w) = w
      /\ exists err,
           fst (Server.submit_work_for_validation e analysis_package validator_agent_id w)
           = Raise err).
Proof.
  split; [|split].
  - intros data_hash Hhash Hid path stored requested.
    assert (Hint : Json.ints_in_limit (World.max_str_digits e) analysis_package = true).
    { unfold Server.content_hash, Json.dumps, Json.checked in Hhash.
      now destruct (Json.ints_in_limit _ _). }
    assert (E : forall w0,
               Server.submit_work_for_validation e analysis_package validator_agent_id w0
               = (let w2 := World.World
                              (<[path := Json.dumps_indent 0 analysis_package]>
                                 (World.files w0))
                              ((World.trace w0 ++ [World.EvWrite path])
                                 ++ [World.EvRequestValidation validator_agent_id data_hash]) in
                  (World.request_validation e w2 validator_agent_id data_hash, w2))).
    { intros w0. unfold Server.submit_work_for_validation, World.bindM, World.lift.
      rewrite Hhash. unfold Json.str, Json.checked. cbn [Json.ints_in_limit]. rewrite Hid.
      unfold Server._store_analysis_package, World.write_json.
      rewrite (StoreFacts.dump_written_in_limit _ _ 0%nat Hint).
      unfold World.call, World.ret. fold path. cbv beta iota zeta.
      cbn [World.files World.trace].
      match goal with
      | |- context [World.request_validation e ?w2 _ _] =>
          now destruct (World.request_validation e w2 validator_agent_id data_hash)
      end. }
    split; [apply E|]. split; [apply lookup_insert_eq|]. split.
    + unfold requested, stored. cbn [World.files World.trace]. now rewrite <- app_assoc.
    + split.
      * intros err Herr. rewrite E.
        change ((World.request_validation e requested validator_agent_id data_hash, requested)
                = (Raise err, requested)).
        now rewrite Herr.
      * rewrite E. cbv zeta. cbn [World.files World.trace snd]. apply insert_insert_eq.
  - intros err Hhash. unfold Server.submit_work_for_validation, World.bindM, World.lift.
    now rewrite Hhash.
  - intros Hid. unfold Server.submit_work_for_validation, World.bindM, World.lift.
    destruct (Server.content_hash _ _) as [data_hash|err]; [|split; [reflexivity|now eexists]].
    unfold Json.str, Json.checked. cbn [Json.ints_in_limit]. rewrite Hid.
    split; [reflexivity|now eexists].
Qed.

Lemma submit_stores_before_request_witness :
  Server.submit_work_for_validation
    (World.Env 4300 (fun _ => 0) (Some 1) "alice.example"
       (fun _ => Raise EngineError) (fun _ => Ok 1000)
       (fun _ _ _ => Raise RegistryError) (fun _ _ _ => Raise RegistryError))
    (Json.JDict [("symbol", Json.JStr "BTC")]) 2 (World.World ∅ [])
  = (Raise RegistryError,
     World.World
       (<[Server.package_path
            (Sha256.hex
               (Sha256.digest
                  (Sha256.utf8 (Json.dumps_sorted (Json.JDict [("symbol", Json.JStr "BTC")])))))
          := Json.dumps_indent 0 (Json.JDict [("symbol", Json.JStr "BTC")])]> ∅)
       [World.EvWrite
          (Server.package_path
             (Sha256.hex
                (Sha256.digest
                   (Sha256.utf8
                      (Json.dumps_sorted (Json.JDict [("symbol", Json.JStr "BTC")]))))));
        World.EvRequestValidation 2
          (Sha256.digest
             (Sha256.utf8 (Json.dumps_sorted (Json.JDict [("symbol", Json.JStr "BTC")]))))]).
Proof.
  apply (proj1 (proj2 (proj2 (proj2
           (proj1 (submit_stores_before_request
                     (World.Env 4300 (fun _ => 0) (Some 1) "alice.example"
                        (fun _ => Raise EngineError) (fun _ => Ok 1000)
                        (fun _ _ _ => Raise RegistryError) (fun _ _ _ => Raise RegistryError))
                     (Json.JDict [("symbol", Json.JStr "BTC")]) 2 (World.World ∅ []))
                  (Sha256.digest
                     (Sha256.utf8
                        (Json.dumps_sorted (Json.JDict [("symbol", Json.JStr "BTC")]))))
                  eq_refl eq_refl))))).
  reflexivity.
Defined.

(** C7: when no package is stored under the hash, [validate_analysis]
    returns the "Analysis package not found" dict and raises nothing; it
    only looks for the file: the engine is not started, no score is
    extracted (the dict has no validation score) and nothing is written.
    The caller in the demonstration then stops, and a submission of that
    dict raises before it writes or calls anything. *)
Theorem validate_package_not_found (e : World.env) (data_hash : string) (w : World.world) :
  World.files w !! Validator.package_path data_hash = None ->
  let looked :=
    World.World (World.files w)
                (World.trace w ++ [World.EvRead (Validator.package_path data_hash) false]) in
  Validator.validate_analysis e data_hash w = (Ok Validator.not_found, looked)
  /\ Validator.getitem Validator.not_found "error" = Ok (Json.JStr "Analysis package not found")
  /\ Validator.getitem Validator.not_found "validation_score" = Raise KeyError
  /\ Validator.submit_validation_response e Validator.not_found looked = (Raise KeyError, looked)
  /\ (forall analysis_package digest,
         Server.content_hash (World.max_str_digits e) analysis_package = Ok digest ->
         data_hash = Sha256.hex digest ->
         Demo.demonstrate_validation e analysis_package w = (Ok None, looked)).
Proof.
  intros Hnone looked.
  assert (E : Validator.validate_analysis e data_hash w = (Ok Validator.not_found, looked)).
  { unfold Validator.validate_analysis, Validator._load_analysis_package, World.read_file,
      World.bindM, World.ret.
    rewrite Hnone. reflexivity. }
  split; [exact E|]. split; [reflexivity|]. split; [reflexivity|]. split; [reflexivity|].
  intros analysis_package digest Hhash ->.
  unfold Demo.demonstrate_validation, World.try_except.
  unfold World.bindM at 1. unfold World.lift at 1. rewrite Hhash.
  unfold World.bindM at 1. rewrite E. reflexivity.
Qed.

Lemma validate_package_not_found_witness :
  Validator.validate_analysis
    (World.Env 4300 (fun _ => 0) (Some 2) "bob.example"
       (fun _ => Ok "score: 90") (fun _ => Ok 1000)
       (fun _ _ _ => Ok "0x01") (fun _ _ _ => Ok "0x02"))
    "00ff" (World.World ∅ [])
  = (Ok Validator.not_found,
     World.World ∅ [World.EvRead (Validator.package_path "00ff") false]).
Proof.
  apply (proj1 (validate_package_not_found
                  (World.Env 4300 (fun _ => 0) (Some 2) "bob.example"
                     (fun _ => Ok "score: 90") (fun _ => Ok 1000)
                     (fun _ _ _ => Ok "0x01") (fun _ _ _ => Ok "0x02"))
                  "00ff" (World.World ∅ []) (lookup_empty _))).
Defined.

(** C6 (as amended): when the engine raises for a package that was read from
    the store (a non-empty dict), the fallback report takes the place of
    the engine's; as long as the block timestamp can be read,
    [validate_analysis] returns a validation package whose score, between 0
    and 100, is extracted from the fallback report, and the engine's
    exception does not reach the caller.  The package is built as on the
    primary path, with the same metadata: no entry records which path was
    taken. *)
Theorem validate_falls_back (e : World.env) (data_hash text : string) (w : World.world)
        (items : list (string * Json.json)) (err : exn) :
  World.files w !! Validator.package_path data_hash = Some text ->
  JsonParse.json_loads (World.max_str_digits e) text = Ok (Json.JDict items) ->
  items <> [] ->
  let read :=
    World.World (World.files w)
                (World.trace w ++ [World.EvRead (Validator.package_path data_hash) true]) in
  let kicked := World.World (World.files w) (World.trace read ++ [World.EvKickoff]) in
  let asked := World.World (World.files w) (World.trace kicked ++ [World.EvGetBlock]) in
  World.kickoff e kicked = Raise err ->
  exists report,
    Fallback._create_fallback_validation (World.max_str_digits e) (Json.JDict items)
    = Ok report
    /\ 0 <= Extractor._extract_validation_score (World.max_str_digits e) report <= 100
    /\ (forall timestamp,
           World.block_timestamp e asked = Ok timestamp ->
           Validator.validate_analysis e data_hash w
           = (Ok (Validator.validation_package e data_hash timestamp
                    (Extractor._extract_validation_score (World.max_str_digits e) report)
                    report (Json.JDict items)),
              asked))
    /\ (forall (e' : World.env) (result : string) (timestamp : Z),
           World.max_str_digits e' = World.max_str_digits e ->
           World.kickoff e' kicked = Ok result ->
           World.block_timestamp e' asked = Ok timestamp ->
           Validator.validate_analysis e' data_hash w
           = (Ok (Validator.validation_package e' data_hash timestamp
                    (Extractor._extract_validation_score (World.max_str_digits e) result)
                    result (Json.JDict items)),
              asked))
    /\ (forall e' hash timestamp score result analysis_package,
           Validator.getitem
             (Validator.validation_package e' hash timestamp score result analysis_package)
             "metadata"
           = Ok Validator.validation_metadata).
Proof.
  intros Hfile Hload Hitems read kicked asked Hkick.
  pose proof (ParseFacts.json_loads_in_limit _ _ _ Hload) as Hint.
  destruct (FallbackFacts.fallback_validation_ok (World.max_str_digits e) items
              (FallbackFacts.analysis_in_limit _ _ Hint)) as [report Hreport].
  exists report. split; [exact Hreport|].
  split; [apply ExtractorFacts.extract_in_range|].
  assert (L : forall e0, World.max_str_digits e0 = World.max_str_digits e ->
                         Validator._load_analysis_package e0 data_hash w
                         = (Ok (Some (Json.JDict items)), read)).
  { intros e0 E0. unfold Validator._load_analysis_package, World.read_file, World.bindM,
      World.lift, World.ret.
    rewrite Hfile, E0, Hload. reflexivity. }
  assert (T : Validator.truthy (Json.JDict items) = true) by now destruct items.
  split; [|split].
  - intros timestamp Hts. unfold Validator.validate_analysis.
    unfold World.bindM at 1. rewrite L by reflexivity. rewrite T. cbn [negb].
    unfold World.bindM, World.try_except, World.call, World.lift, World.ret.
    unfold Json.dumps2, Json.checked. rewrite Hint.
    subst read kicked asked. cbn [World.files World.trace] in *.
    rewrite Hkick, Hreport. cbn [World.files World.trace]. now rewrite Hts.
  - intros e' result timestamp E' Hk Hts. unfold Validator.validate_analysis.
    unfold World.bindM at 1. rewrite L by assumption. rewrite T. cbn [negb].
    unfold World.bindM, World.try_except, World.call, World.lift, World.ret.
    unfold Json.dumps2, Json.checked. rewrite E', Hint.
    subst read kicked asked. cbn [World.files World.trace] in *.
    rewrite Hk. cbn [World.files World.trace]. now rewrite Hts.
  - reflexivity.
Qed.

Lemma validate_falls_back_witness :
  exists report,
    Fallback._create_fallback_validation 4300 Sample.analysis_package = Ok report
    /\ Validator.validate_analysis Sample.bob_engine_down Sample.data_hash Sample.submitted
       = (Ok (Validator.validation_package Sample.bob_engine_down Sample.data_hash 1700000000
                (Extractor._extract_validation_score 4300 report) report
                Sample.analysis_package),
          World.World (World.files Sample.submitted)
            [World.EvRead (Validator.package_path Sample.data_hash) true;
             World.EvKickoff; World.EvGetBlock]).
Proof.
  destruct (validate_falls_back Sample.bob_engine_down Sample.data_hash
              (Json.dumps_indent 0 Sample.analysis_package) Sample.submitted
              [ ("symbol", Json.JStr "BTC");
                ("timeframe", Json.JStr "1d");
                ("timestamp", Json.JInt 1000);
                ("agent_id", Json.JInt 7);
                ("agent_domain", Json.JStr "alice.example");
                ("analysis",
                 Json.JStr "Trend is bullish, support at 45000, recommendation BUY, risk medium");
                ("metadata", Json.JDict [ ("crew_agents", Json.JInt 2);
                                          ("tasks_completed", Json.JInt 2);
                                          ("analysis_method",
                                           Json.JStr "CrewAI Multi-Agent Analysis") ]) ]
              EngineError)
    as (report & Hreport & _ & Hrun & _).
  - apply lookup_insert_eq.
  - vm_compute. reflexivity.
  - discriminate.
  - reflexivity.
  - exists report. split; [exact Hreport|]. apply Hrun. reflexivity.
Defined.

(** The validation package of a run whose engine is down is the package of
    a run whose engine answers with the same text: nothing in it, and no
    metadata entry, tells the fallback from the engine.  Its metadata
    names the engine's method. *)
Lemma validate_falls_back_counterexample :
  fst (Validator.validate_analysis Sample.bob_engine_down Sample.data_hash Sample.submitted)
  = fst (Validator.validate_analysis (Sample.bob_engine_says Sample.fallback_report)
           Sample.data_hash Sample.submitted)
  /\ exists package,
       fst (Validator.validate_analysis Sample.bob_engine_down Sample.data_hash
              Sample.submitted) = Ok package
       /\ Validator.getitem package "metadata"
          = Ok (Json.JDict
                  [ ("validation_method", Json.JStr "CrewAI Multi-Agent Validation");
                    ("validator_agents", Json.JInt 2);
                    ("validation_tasks", Json.JInt 2) ]).
Proof.
  split; [vm_compute; reflexivity|].
  eexists. split; vm_compute; reflexivity.
Qed.
